(** * AWS Security Posture Dashboard: a shallow embedding of
      [streamlit-dashboard.py] and the properties of its pipeline.

    The script is one straight-line program: it loads every JSON export of a
    directory, turns the findings into a list of dict records, builds a
    DataFrame, upper-cases the severity column, adds three derived columns,
    filters by the sidebar selections and hands the result to the metrics,
    the table display and the Excel export.

    Modelling conventions.
    - Text is a Rocq [string] (a sequence of 8-bit characters).  The case
      mappings [lower], [upper] and [capitalize] act on the ASCII letters and
      leave every other character alone, so the development speaks about
      ASCII text; Python's Unicode case tables are outside the embedding.
    - A Python object that [json.load] can return is a [json] value.  An
      [int] is a [Z]; a [float] is [nan], an infinity or a finite value given
      by the rational it denotes (Python compares a float with an int by
      exact value), and carries the text [repr] prints for it.
    - A [dict] is an association list in insertion order, read with [lookup].
    - A DataFrame is its column labels and its rows; a cell keeps the Python
      value the record holds (the dtype conversions pandas applies to
      columns without text are not part of the embedding).
    - Code that can raise runs in the error monad [result].
    - The widgets, the charts and the encoding of the Excel file are
      collaborators: the embedding stops at the values handed to them. *)

From Stdlib Require Import String Ascii List ZArith QArith Bool Arith Lia.
From Stdlib Require Import DecimalString.
Import ListNotations.

Local Open Scope string_scope.
Local Open Scope list_scope.

(* ===================================================================== *)
(** ** Python [str] methods on ASCII text *)
(* ===================================================================== *)

Module PyStr.

Definition is_upper (c : ascii) : bool :=
  let n := nat_of_ascii c in (65 <=? n)%nat && (n <=? 90)%nat.

Definition is_lower (c : ascii) : bool :=
  let n := nat_of_ascii c in (97 <=? n)%nat && (n <=? 122)%nat.

Definition lower_char (c : ascii) : ascii :=
  if is_upper c then ascii_of_nat (nat_of_ascii c + 32) else c.

Definition upper_char (c : ascii) : ascii :=
  if is_lower c then ascii_of_nat (nat_of_ascii c - 32) else c.

(** [s.lower()] *)
Fixpoint lower (s : string) : string :=
  match s with
  | EmptyString => EmptyString
  | String c r => String (lower_char c) (lower r)
  end.

(** [s.upper()] *)
Fixpoint upper (s : string) : string :=
  match s with
  | EmptyString => EmptyString
  | String c r => String (upper_char c) (upper r)
  end.

(** [s.capitalize()]: first character upper-cased, the rest lower-cased. *)
Definition capitalize (s : string) : string :=
  match s with
  | EmptyString => EmptyString
  | String c r => String (upper_char c) (lower r)
  end.

(** [sub in s] *)
Fixpoint contains (sub s : string) : bool :=
  if prefix sub s then true
  else match s with
       | EmptyString => false
       | String _ r => contains sub r
       end.

Definition char_eqb (a b : ascii) : bool := Ascii.eqb a b.

(** [s.split(sep)[0]] for a one-character separator: the text before the
    first separator, the whole text when there is none. *)
Fixpoint split_head (sep : ascii) (s : string) : string :=
  match s with
  | EmptyString => EmptyString
  | String c r => if char_eqb c sep then EmptyString
                  else String c (split_head sep r)
  end.

Fixpoint has_char (x : ascii) (s : string) : bool :=
  match s with
  | EmptyString => false
  | String c r => char_eqb c x || has_char x r
  end.

(** [os.path.basename(p)]: the text after the last slash. *)
Fixpoint basename (p : string) : string :=
  match p with
  | EmptyString => EmptyString
  | String c r =>
      if has_char "/"%char r then basename r
      else if char_eqb c "/"%char then r else p
  end.

(** [sep.join(parts)] *)
Definition join (sep : string) (parts : list string) : string :=
  String.concat sep parts.

(** The characters of a string, as iteration over a [str] yields them. *)
Fixpoint chars (s : string) : list string :=
  match s with
  | EmptyString => []
  | String c r => String c EmptyString :: chars r
  end.



End PyStr.

(* ===================================================================== *)
(** ** Python values, exceptions and the built-ins the script calls *)
(* ===================================================================== *)

Module Py.
Import PyStr.

(** The numeric value of a float. *)
Inductive fvalue : Type :=
| Fnan
| Finf (negative : bool)
| Ffin (q : Q).

(** What [json.load] returns: [None], [bool], [int], [float], [str],
    [list] or [dict].  A float carries its [repr] text. *)
#[warnings="-register-all"] Inductive json : Type :=
| JNull
| JBool (b : bool)
| JInt (z : Z)
| JFloat (x : fvalue) (text : string)
| JStr (s : string)
| JList (l : list json)
| JDict (d : list (string * json)).

(** [float('nan')], the missing-value marker of pandas. *)
Definition NaN : json := JFloat Fnan "nan".

Inductive exn : Type :=
| JSONDecodeError
| AttributeError
| TypeError
| KeyError
| StopException.

Inductive result (A : Type) : Type :=
| Ok (a : A)
| Raise (e : exn).
Arguments Ok {A} a.
Arguments Raise {A} e.

Definition bind {A B : Type} (c : result A) (k : A -> result B) : result B :=
  match c with
  | Ok a => k a
  | Raise e => Raise e
  end.

(** A [for] loop whose body can raise: the first exception ends it. *)
Fixpoint mapM {A B : Type} (f : A -> result B) (l : list A) : result (list B) :=
  match l with
  | [] => Ok []
  | a :: r =>
      match f a with
      | Ok b => match mapM f r with
                | Ok bs => Ok (b :: bs)
                | Raise e => Raise e
                end
      | Raise e => Raise e
      end
  end.

(** First binding of a key. *)
Fixpoint lookup (k : string) (d : list (string * json)) : option json :=
  match d with
  | [] => None
  | (k', v) :: r => if String.eqb k k' then Some v else lookup k r
  end.

(** [o.get(k, default)]: only a [dict] has the method. *)
Definition py_get (o : json) (k : string) (default : json) : result json :=
  match o with
  | JDict d => Ok (match lookup k d with Some v => v | None => default end)
  | _ => Raise AttributeError
  end.

(** [bool(v)], the test of [if v:] and of [v or w]. *)
Definition truthy (v : json) : bool :=
  match v with
  | JNull => false
  | JBool b => b
  | JInt z => negb (Z.eqb z 0)
  | JFloat (Ffin q) _ => negb (Qeq_bool q 0)
  | JFloat _ _ => true
  | JStr s => negb (String.eqb s EmptyString)
  | JList l => match l with [] => false | _ => true end
  | JDict d => match d with [] => false | _ => true end
  end.

Definition isinstance_dict (v : json) : bool :=
  match v with JDict _ => true | _ => false end.

(** [isinstance(v, (int, float))]; [bool] is a subclass of [int]. *)
Definition isinstance_number (v : json) : bool :=
  match v with
  | JBool _ | JInt _ | JFloat _ _ => true
  | _ => false
  end.

(** [v >= k] for an int literal [k]: exact comparison for numbers (every
    comparison with nan is false), [TypeError] for anything else. *)
Definition py_ge (v : json) (k : Z) : result bool :=
  match v with
  | JBool b => Ok (k <=? (if b then 1 else 0))%Z
  | JInt z => Ok (k <=? z)%Z
  | JFloat Fnan _ => Ok false
  | JFloat (Finf negative) _ => Ok (negb negative)
  | JFloat (Ffin q) _ => Ok (Qle_bool (inject_Z k) q)
  | _ => Raise TypeError
  end.

(** [iter(v)]: the elements of a list, the keys of a dict, the characters
    of a str; the other values are not iterable. *)
Definition py_iter (v : json) : result (list json) :=
  match v with
  | JList l => Ok l
  | JDict d => Ok (map (fun kv => JStr (fst kv)) d)
  | JStr s => Ok (map JStr (chars s))
  | _ => Raise TypeError
  end.

Definition hex_digit (n : nat) : ascii :=
  if (n <? 10)%nat then ascii_of_nat (48 + n) else ascii_of_nat (87 + n).

(** One character inside the quotes of [repr(str)]. *)
Definition repr_char (quote : ascii) (c : ascii) : string :=
  let n := nat_of_ascii c in
  if char_eqb c "\"%char then "\\"
  else if char_eqb c quote then String "\"%char (String c EmptyString)
  else if (n =? 9)%nat then "\t"
  else if (n =? 10)%nat then "\n"
  else if (n =? 13)%nat then "\r"
  else if ((n <? 32) || (n =? 127))%nat
       then String "\"%char (String "x"%char
              (String (hex_digit (n / 16)) (String (hex_digit (n mod 16)) EmptyString)))
  else String c EmptyString.

Fixpoint repr_chars (quote : ascii) (s : string) : string :=
  match s with
  | EmptyString => EmptyString
  | String c r => (repr_char quote c ++ repr_chars quote r)%string
  end.

Definition double_quote : ascii := ascii_of_nat 34.
Definition single_quote : ascii := ascii_of_nat 39.

(** [repr(s)] for a str: single quotes unless the text has a single quote
    and no double quote. *)
Definition repr_str (s : string) : string :=
  let quote := if has_char single_quote s && negb (has_char double_quote s)
               then double_quote else single_quote in
  String quote (repr_chars quote s ++ String quote EmptyString)%string.

Definition repr_int (z : Z) : string := NilZero.string_of_int (Z.to_int z).

(** [repr(v)] *)
Fixpoint py_repr (v : json) : string :=
  match v with
  | JNull => "None"
  | JBool b => if b then "True" else "False"
  | JInt z => repr_int z
  | JFloat _ text => text
  | JStr s => repr_str s
  | JList l => ("[" ++ join ", " (map py_repr l) ++ "]")%string
  | JDict d =>
      ("{" ++ join ", "
                (map (fun kv => let '(k, x) := kv in
                                (repr_str k ++ ": " ++ py_repr x)%string) d)
           ++ "}")%string
  end.

(** [str(v)]: a str is itself, everything else prints as its [repr]. *)
Definition py_str (v : json) : string :=
  match v with
  | JStr s => s
  | _ => py_repr v
  end.

End Py.

Module Notations.
Notation "x <- c ;; k" := (Py.bind c (fun x => k))
  (at level 61, c at next level, right associativity).
End Notations.

(* ===================================================================== *)
(** ** The script *)
(* ===================================================================== *)

Module Dashboard.
Import PyStr Py Notations.

(** A record of [records], and a row of the DataFrame: the dict literal
    [{"Service": ..., ...}] with its keys in insertion order. *)
Definition row : Type := list (string * json).

(** [r[col]] read from a row; a key the record lacks is a missing value. *)
Definition cell (r : row) (col : string) : json :=
  match lookup col r with
  | Some v => v
  | None => NaN
  end.

(** A DataFrame: the column labels in order and the rows in order. *)
Record DataFrame : Type := mkDataFrame {
  columns : list string;
  rows : list row
}.

(** One input file: its name as [glob.glob] lists it, and what
    [json.load] makes of its content ([None]: the content is not JSON). *)
Record file : Type := mkFile {
  file_name : string;
  content : option json
}.

(** [json.load(f)] *)
Definition json_load (f : file) : result json :=
  match content f with
  | Some data => Ok data
  | None => Raise JSONDecodeError
  end.

(** Line 21: [os.path.basename(file).split("-")[0].capitalize()] *)
Definition service_name (file_name : string) : string :=
  capitalize (split_head "-"%char (basename file_name)).

(** Lines 29-42: the severity label of one finding. *)
Definition sev_label (sev : json) : result json :=
  if isinstance_dict sev then
    label <- py_get sev "Label" JNull ;;
    if truthy label then Ok label
    else
      normalized <- py_get sev "Normalized" JNull ;;
      if truthy normalized then Ok normalized
      else Ok (JStr "Medium")
  else if isinstance_number sev then
    ge8 <- py_ge sev 8 ;;
    if ge8 then Ok (JStr "Critical")
    else
      ge5 <- py_ge sev 5 ;;
      if ge5 then Ok (JStr "High")
      else
        ge3 <- py_ge sev 3 ;;
        if ge3 then Ok (JStr "Medium")
        else Ok (JStr "Low")
  else Ok (JStr (capitalize (py_str sev))).

(** Lines 29-54: the record appended for one element of the findings.
    An argument of a call is evaluated before the call, so the default of
    a [get] is computed first. *)
Definition finding_record (service_name : string) (fnd : json) : result row :=
  sev <- py_get fnd "Severity" (JStr "Medium") ;;
  label <- sev_label sev ;;
  account_default <- py_get fnd "resourceOwnerAccount" (JStr EmptyString) ;;
  account <- py_get fnd "AwsAccountId" account_default ;;
  region <- py_get fnd "Region" (JStr "us-east-2") ;;
  resource_default <- py_get fnd "resource" (JStr EmptyString) ;;
  resource <- py_get fnd "Resource" resource_default ;;
  title_default <- py_get fnd "id" (JStr ("Finding from " ++ service_name)%string) ;;
  title <- py_get fnd "Title" title_default ;;
  description_default <- py_get fnd "findingDetails" (JStr EmptyString) ;;
  description <- py_get fnd "Description" description_default ;;
  workflow <- py_get fnd "Workflow" (JDict []) ;;
  status <-
    (if isinstance_dict workflow then
       status_default <- py_get fnd "status" (JStr "ACTIVE") ;;
       py_get workflow "Status" status_default
     else Raise AttributeError) ;;
  created_at <- py_get fnd "CreatedAt" (JStr EmptyString) ;;
  Ok [ ("Service", JStr service_name);
       ("Account", account);
       ("Region", region);
       ("Resource", JStr (py_str resource));
       ("Severity", label);
       ("Title", title);
       ("Description", description);
       ("Status", status);
       ("CreatedAt", created_at) ].

(** Lines 57-67: the record of a document without findings. *)
Definition placeholder_record (service_name : string) : row :=
  [ ("Service", JStr service_name);
    ("Account", JStr EmptyString);
    ("Region", JStr "us-east-2");
    ("Resource", JStr EmptyString);
    ("Severity", JStr "Informational");
    ("Title", JStr ("No critical findings for " ++ service_name)%string);
    ("Description",
      JStr (service_name ++ " data loaded but no security findings reported.")%string);
    ("Status", JStr "N/A");
    ("CreatedAt", JStr EmptyString) ].

(** Line 26: [data.get("Findings", data.get("findings", []))] *)
Definition findings_of (data : json) : result json :=
  lower_key <- py_get data "findings" (JList []) ;;
  py_get data "Findings" lower_key.

(** Lines 26-67: the records one parsed document adds. *)
Definition extract (service_name : string) (data : json) : result (list row) :=
  findings <- findings_of data ;;
  if truthy findings then
    elements <- py_iter findings ;;
    mapM (finding_record service_name) elements
  else Ok [placeholder_record service_name].

(** Lines 18-67: the loop over the files.  Nothing catches an exception,
    so the first one ends the run. *)
Fixpoint load_records (files : list file) : result (list row) :=
  match files with
  | [] => Ok []
  | f :: rest =>
      data <- json_load f ;;
      added <- extract (service_name (file_name f)) data ;;
      later <- load_records rest ;;
      Ok (added ++ later)
  end.

(** *** The DataFrame *)

Definition has_key (k : string) (ks : list string) : bool :=
  existsb (String.eqb k) ks.

Definition add_key (ks : list string) (k : string) : list string :=
  if has_key k ks then ks else ks ++ [k].

(** The column labels of [pd.DataFrame(records)]: the keys of the records
    in order of first appearance. *)
Definition union_keys (records : list row) : list string :=
  fold_left (fun ks r => fold_left add_key (map fst r) ks) records [].

(** A record laid out on the columns; a key it lacks gives [NaN]. *)
Definition reindex (cols : list string) (r : row) : row :=
  map (fun c => (c, cell r c)) cols.

(** Line 70: [pd.DataFrame(records)]: the columns are the keys, each row
    holds the values of its record.  pandas may convert the values of a
    column that holds no text (null and int become nan and float); that
    conversion is not part of the embedding, which therefore says nothing
    about the values of such a column beyond what the records hold.  The
    columns of texts (service, resource, severity and the derived ones) are
    never converted. *)
Definition pd_DataFrame (records : list row) : DataFrame :=
  let cols := union_keys records in
  mkDataFrame cols (map (reindex cols) records).

(** [df.empty]: no row or no column. *)
Definition empty (df : DataFrame) : bool :=
  match rows df, columns df with
  | [], _ => true
  | _, [] => true
  | _, _ => false
  end.

(** [r[col] = v] on one row: an existing column keeps its place, a new
    one goes last. *)
Fixpoint set_cell (col : string) (v : json) (r : row) : row :=
  match r with
  | [] => [(col, v)]
  | (k, x) :: rest =>
      if String.eqb col k then (k, v) :: rest
      else (k, x) :: set_cell col v rest
  end.

(** [df[col] = df[src].apply(f)]: [f] runs on the [src] cell of every row
    in order; the first exception ends the run. *)
Definition assign (col src : string) (f : json -> result json) (df : DataFrame)
  : result DataFrame :=
  new_rows <- mapM (fun r => v <- f (cell r src) ;; Ok (set_cell col v r)) (rows df) ;;
  Ok (mkDataFrame (add_key (columns df) col) new_rows).

(** Line 76, one cell of [df["Severity"].str.upper()]: a str is
    upper-cased, any other value becomes a missing value.  (When the
    column holds no str at all pandas rejects the [.str] accessor with an
    [AttributeError]; the run then ends with the same exception the model
    raises at line 117, one statement later.) *)
Definition str_upper (v : json) : json :=
  match v with
  | JStr s => JStr (upper s)
  | _ => NaN
  end.

(** [v.lower()]: only a str has the method. *)
Definition py_lower (v : json) : result string :=
  match v with
  | JStr s => Ok (lower s)
  | _ => Raise AttributeError
  end.

(** Lines 79-88 *)
Definition team_map (service : json) : json :=
  let s := lower (py_str service) in
  if contains "guardduty" s || contains "securityhub" s then JStr "CAPSA Team"
  else if contains "inspector" s || contains "accessanalyzer" s then JStr "BCG Team"
  else if contains "detective" s then JStr "Both BCG & CAPSA Team"
  else JStr "Others".

(** Lines 90-101 *)
Definition fix_timeline (sev : json) : result json :=
  sev <- py_lower sev ;;
  if String.eqb sev "critical" then Ok (JStr "5 Days")
  else if String.eqb sev "high" then Ok (JStr "1 Week")
  else if String.eqb sev "medium" then Ok (JStr "2 Weeks")
  else if String.eqb sev "low" then Ok (JStr "3 Weeks")
  else Ok (JStr "N/A").

(** Lines 103-114 *)
Definition fix_cost (sev : json) : result json :=
  sev <- py_lower sev ;;
  if String.eqb sev "critical" then Ok (JStr "$250/hour")
  else if String.eqb sev "high" then Ok (JStr "$150/hour")
  else if String.eqb sev "medium" then Ok (JStr "$75/hour")
  else if String.eqb sev "low" then Ok (JStr "$25/hour")
  else Ok (JStr "Minimal").

(** Lines 18-118: the table the rest of the script works on.  An empty
    DataFrame stops the script ([st.stop()]). *)
Definition df (files : list file) : result DataFrame :=
  records <- load_records files ;;
  let df := pd_DataFrame records in
  if empty df then Raise StopException
  else
    df <- assign "Severity" "Severity" (fun v => Ok (str_upper v)) df ;;
    df <- assign "Team" "Service" (fun v => Ok (team_map v)) df ;;
    df <- assign "Fix Timeline" "Severity" fix_timeline df ;;
    assign "Cost to Fix (Est.)" "Severity" fix_cost df.

(** *** Filters, metrics, display and export *)

(** The three [st.multiselect] values of the sidebar. *)
Record selection : Type := mkSelection {
  selected_services : list string;
  selected_severity : list string;
  selected_team : list string
}.

(** One cell of [series.isin(values)] *)
Definition isin (v : json) (values : list string) : bool :=
  match v with
  | JStr s => existsb (String.eqb s) values
  | _ => false
  end.

(** [df[mask]]: the rows whose mask is true, in order. *)
Definition select_rows (mask : row -> bool) (df : DataFrame) : DataFrame :=
  mkDataFrame (columns df) (filter mask (rows df)).

(** [if l:] on a list *)
Definition nonempty {A : Type} (l : list A) : bool :=
  match l with [] => false | _ => true end.

(** Lines 127-133 *)
Definition filtered (df : DataFrame) (sel : selection) : DataFrame :=
  let filtered := df in
  let filtered :=
    if nonempty (selected_services sel)
    then select_rows (fun r => isin (cell r "Service") (selected_services sel)) filtered
    else filtered in
  let filtered :=
    if nonempty (selected_severity sel)
    then select_rows (fun r => isin (cell r "Severity") (selected_severity sel)) filtered
    else filtered in
  let filtered :=
    if nonempty (selected_team sel)
    then select_rows (fun r => isin (cell r "Team") (selected_team sel)) filtered
    else filtered in
  filtered.

(** One cell of [series == "TEXT"] *)
Definition eq_str (v : json) (s : string) : bool :=
  match v with
  | JStr t => String.eqb t s
  | _ => false
  end.

(** [len(df)] *)
Definition len (df : DataFrame) : nat := length (rows df).

(** Lines 137-140: the four numbers of the metrics row. *)
Definition total_findings (filtered : DataFrame) : nat := len filtered.

Definition critical_count (filtered : DataFrame) : nat :=
  len (select_rows (fun r => eq_str (cell r "Severity") "CRITICAL") filtered).

Definition high_count (filtered : DataFrame) : nat :=
  len (select_rows (fun r => eq_str (cell r "Severity") "HIGH") filtered).

Definition medium_low_count (filtered : DataFrame) : nat :=
  len (select_rows (fun r => isin (cell r "Severity") ["MEDIUM"; "LOW"]) filtered).

(** Lines 174-177: the columns of the table on the page. *)
Definition display_columns : list string :=
  ["Service"; "Severity"; "Team"; "Fix Timeline"; "Cost to Fix (Est.)";
   "Title"; "Description"; "Account"; "Region"; "Status"].

(** [df[[c1, ..., cn]]]: a label the frame lacks is a [KeyError]. *)
Definition project (cols : list string) (df : DataFrame) : result DataFrame :=
  if forallb (fun c => has_key c (columns df)) cols
  then Ok (mkDataFrame cols (map (reindex cols) (rows df)))
  else Raise KeyError.

(** The cells [df.to_excel(writer, index=False)] hands to the writer: the
    header row with the column labels, then one row per record with its
    values in column order, and no index column. *)
Definition to_excel (df : DataFrame) : list (list json) :=
  map JStr (columns df) :: map (fun r => map (cell r) (columns df)) (rows df).

(** Lines 173-180: what [st.dataframe] is given. *)
Definition displayed (filtered : DataFrame) : result DataFrame :=
  project display_columns filtered.

(** Lines 185-188: what the Excel sheet holds. *)
Definition excel_sheet (filtered : DataFrame) : list (list json) :=
  to_excel filtered.

(** *** The sidebar options and the severity chart *)

(** [df[col]]: the cells of a column, top to bottom. *)
Definition column (col : string) (df : DataFrame) : list json :=
  map (fun r => cell r col) (rows df).

(** The values of a column of texts.  The three filter columns of the
    table hold texts only (a run that reaches line 123 has passed line 117);
    a column with another value is outside what is modelled here. *)
Fixpoint texts (l : list json) : option (list string) :=
  match l with
  | [] => Some []
  | JStr s :: r =>
      match texts r with
      | Some ts => Some (s :: ts)
      | None => None
      end
  | _ :: _ => None
  end.

(** [series.unique()]: the distinct values, in order of first appearance. *)
Fixpoint unique (l : list string) : list string :=
  match l with
  | [] => []
  | x :: r => x :: filter (fun y => negb (String.eqb x y)) (unique r)
  end.

(** [sorted(l)] on texts: ascending in the order of [str], character code
    by character code, a proper prefix first. *)
Fixpoint insert_sorted (x : string) (l : list string) : list string :=
  match l with
  | [] => [x]
  | y :: r => if String.leb x y then x :: l else y :: insert_sorted x r
  end.

Fixpoint sorted (l : list string) : list string :=
  match l with
  | [] => []
  | x :: r => insert_sorted x (sorted r)
  end.

(** Lines 123-125: the choices of a sidebar multiselect,
    [sorted(df[col].unique())]. *)
Definition options (col : string) (df : DataFrame) : option (list string) :=
  match texts (column col df) with
  | Some ts => Some (sorted (unique ts))
  | None => None
  end.

(** The number of cells of a column equal to a text. *)
Definition count_text (s : string) (l : list string) : nat :=
  length (filter (String.eqb s) l).

(** Line 149: [filtered.groupby(col).size().reset_index(name="Count")], the
    groups in ascending key order, each with its number of rows. *)
Definition groupby_size (col : string) (df : DataFrame) : option (list (string * nat)) :=
  match texts (column col df) with
  | Some ts => Some (map (fun k => (k, count_text k ts)) (sorted (unique ts)))
  | None => None
  end.

End Dashboard.
(* ===================================================================== *)
(** ** The notions the properties are stated with *)
(* ===================================================================== *)

Module Spec.
Import PyStr Py Notations Dashboard.

(** The number a numeric severity denotes; [True] and [False] count as 1
    and 0, as they do for Python.  [nan] and the infinities denote none. *)
Definition score (sev : json) : option Q :=
  match sev with
  | JBool b => Some (inject_Z (if b then 1 else 0))
  | JInt z => Some (inject_Z z)
  | JFloat (Ffin q) _ => Some q
  | _ => None
  end.

(** The findings entry of a document: the value under [Findings], else the
    one under [findings]; a document that is not a mapping has none. *)
Definition findings_entry (data : json) : option json :=
  match data with
  | JDict d =>
      match lookup "Findings" d with
      | Some v => Some v
      | None => lookup "findings" d
      end
  | _ => None
  end.

(** The findings entry is absent, or it is empty (falsy for Python: the
    empty list, and also [null], [false], zero, the empty text and the
    empty mapping). *)
Definition absent_or_empty (data : json) : bool :=
  match findings_entry data with
  | None => true
  | Some v => negb (truthy v)
  end.

(** A finding element the extractor accepts: a mapping whose [Workflow]
    value, when there is one, is a mapping too. *)
Definition finding_ok (fnd : json) : bool :=
  match fnd with
  | JDict d =>
      match lookup "Workflow" d with
      | None => true
      | Some (JDict _) => true
      | Some _ => false
      end
  | _ => false
  end.

(** A document the extractor accepts: a mapping whose findings entry is
    absent, empty, or a list of accepted elements. *)
Definition well_shaped (data : json) : bool :=
  match data with
  | JDict _ =>
      match findings_entry data with
      | None => true
      | Some v =>
          if truthy v
          then match v with
               | JList l => forallb finding_ok l
               | _ => false
               end
          else true
      end
  | _ => false
  end.

(** The keys of every record, in the order of the dict literal. *)
Definition record_keys : list string :=
  ["Service"; "Account"; "Region"; "Resource"; "Severity";
   "Title"; "Description"; "Status"; "CreatedAt"].

(** The columns of the table: the record keys, then the derived columns
    in the order they are assigned. *)
Definition table_columns : list string :=
  record_keys ++ ["Team"; "Fix Timeline"; "Cost to Fix (Est.)"].



(** A record as lines 44-54 build it: the service and the resource are
    texts, the other fields are whatever the finding holds. *)
Definition make_record (service : string) (account region : json) (resource : string)
  (label title description status created_at : json) : row :=
  [ ("Service", JStr service);
    ("Account", account);
    ("Region", region);
    ("Resource", JStr resource);
    ("Severity", label);
    ("Title", title);
    ("Description", description);
    ("Status", status);
    ("CreatedAt", created_at) ].

Definition record_shape (r : row) : Prop :=
  exists service account region resource label title description status created_at,
    r = make_record service account region resource label title description
          status created_at.

(** A row of the table: the record with its severity upper-cased, followed
    by the three derived cells. *)
Definition make_table_row (service : string) (account region : json) (resource : string)
  (severity : string) (title description status created_at : json)
  (team timeline cost : string) : row :=
  [ ("Service", JStr service);
    ("Account", account);
    ("Region", region);
    ("Resource", JStr resource);
    ("Severity", JStr severity);
    ("Title", title);
    ("Description", description);
    ("Status", status);
    ("CreatedAt", created_at);
    ("Team", JStr team);
    ("Fix Timeline", JStr timeline);
    ("Cost to Fix (Est.)", JStr cost) ].

Definition table_row_shape (r : row) : Prop :=
  exists service account region resource severity title description status
         created_at team timeline cost,
    r = make_table_row service account region resource severity title description
          status created_at team timeline cost
    /\ upper severity = severity
    /\ team_map (JStr service) = JStr team
    /\ fix_timeline (JStr severity) = Ok (JStr timeline)
    /\ fix_cost (JStr severity) = Ok (JStr cost).

(** The table row of the placeholder record of a service. *)
Definition placeholder_table_row (service : string) (team : string) : row :=
  make_table_row service (JStr EmptyString) (JStr "us-east-2") EmptyString
    "INFORMATIONAL"
    (JStr ("No critical findings for " ++ service)%string)
    (JStr (service ++ " data loaded but no security findings reported.")%string)
    (JStr "N/A") (JStr EmptyString)
    team "N/A" "Minimal".

(** Lines 76-118 on one record. *)
Definition derive_row (r : row) : result row :=
  let r := set_cell "Severity" (str_upper (cell r "Severity")) r in
  let r := set_cell "Team" (team_map (cell r "Service")) r in
  timeline <- fix_timeline (cell r "Severity") ;;
  let r := set_cell "Fix Timeline" timeline r in
  cost <- fix_cost (cell r "Severity") ;;
  Ok (set_cell "Cost to Fix (Est.)" cost r).

(** A selection constrains a field when it is not empty: the field must
    then be one of the selected values. *)
Definition allows (values : list string) (v : json) : Prop :=
  values <> [] -> exists s, v = JStr s /\ In s values.

(** The filter contract: every dimension allows the record. *)
Definition survives (sel : selection) (r : row) : Prop :=
  allows (selected_services sel) (cell r "Service")
  /\ allows (selected_severity sel) (cell r "Severity")
  /\ allows (selected_team sel) (cell r "Team").

Definition allowsb (values : list string) (v : json) : bool :=
  match values with
  | [] => true
  | _ => isin v values
  end.

Definition survivesb (sel : selection) (r : row) : bool :=
  allowsb (selected_services sel) (cell r "Service")
  && allowsb (selected_severity sel) (cell r "Severity")
  && allowsb (selected_team sel) (cell r "Team").

(** [l1] is [l2] with some elements removed, the others in place. *)
Inductive subsequence {A : Type} : list A -> list A -> Prop :=
| sub_nil : subsequence [] []
| sub_skip x l1 l2 : subsequence l1 l2 -> subsequence l1 (x :: l2)
| sub_keep x l1 l2 : subsequence l1 l2 -> subsequence (x :: l1) (x :: l2).

(** The four severities the metrics and the derivation tables know. *)
Definition recognized (v : json) : Prop :=
  v = JStr "CRITICAL" \/ v = JStr "HIGH" \/ v = JStr "MEDIUM" \/ v = JStr "LOW".

Definition recognizedb (v : json) : bool :=
  eq_str v "CRITICAL" || eq_str v "HIGH" || isin v ["MEDIUM"; "LOW"].

(** The number of records a document contributes: one per element of a
    non-empty findings list, one placeholder otherwise. *)
Definition finding_count (data : json) : nat :=
  match findings_entry data with
  | Some (JList (x :: l)) => S (length l)
  | _ => 1%nat
  end.

(** The normalized severity label of a finding element. *)
Definition label_of (fnd : json) : result json :=
  sev <- py_get fnd "Severity" (JStr "Medium") ;;
  sev_label sev.

Definition text_label (fnd : json) : bool :=
  match label_of fnd with
  | Ok (JStr _) => true
  | _ => false
  end.

(** Every finding of the document normalizes to a text label. *)
Definition text_labels (data : json) : bool :=
  match findings_entry data with
  | Some (JList l) => forallb text_label l
  | _ => true
  end.

(** A file the whole run accepts: it parses, its document is well shaped
    and its severity labels are texts. *)
Definition file_ready (f : file) : bool :=
  match content f with
  | Some data => well_shaped data && text_labels data
  | None => false
  end.

(** The value under the first of the keys that the mapping has, else the
    default. *)
Fixpoint first_present (keys : list string) (d : list (string * json)) (default : json)
  : json :=
  match keys with
  | [] => default
  | k :: ks =>
      match lookup k d with
      | Some v => v
      | None => first_present ks d default
      end
  end.

(** The [Workflow] mapping of a finding, empty when the key is absent. *)
Definition workflow_of (d : list (string * json)) : list (string * json) :=
  match lookup "Workflow" d with
  | Some (JDict w) => w
  | _ => []
  end.

(** [sub] occurs in [s]. *)
Definition occurs (sub s : string) : Prop :=
  exists a b, s = (a ++ sub ++ b)%string.

(** The columns lines 76-118 write. *)
Definition written_columns : list string :=
  ["Severity"; "Team"; "Fix Timeline"; "Cost to Fix (Est.)"].

(** Ascending in the order of [str]. *)
Fixpoint ascending (l : list string) : Prop :=
  match l with
  | [] => True
  | x :: r => (forall y, In y r -> String.leb x y = true) /\ ascending r
  end.

Definition no_char (x : ascii) (s : string) : Prop := has_char x s = false.

(** The severity of a finding is given as the text [s]: directly, or as a
    mapping with the text [s], not empty, under [Label]. *)
Definition severity_text (d : list (string * json)) (s : string) : Prop :=
  lookup "Severity" d = Some (JStr s)
  \/ exists m, lookup "Severity" d = Some (JDict m)
               /\ lookup "Label" m = Some (JStr s) /\ s <> EmptyString.

(** The key is absent from the mapping, or its value is falsy. *)
Definition falsy_at (k : string) (m : list (string * json)) : Prop :=
  match lookup k m with
  | Some v => truthy v = false
  | None => True
  end.

(** The finding gives no usable severity: no [Severity] key, or a mapping
    with neither a usable [Label] nor a usable [Normalized]. *)
Definition severity_missing (d : list (string * json)) : Prop :=
  lookup "Severity" d = None
  \/ exists m, lookup "Severity" d = Some (JDict m)
               /\ falsy_at "Label" m /\ falsy_at "Normalized" m.

(** The number of rows the files give: the findings of every document, a
    placeholder counting for one. *)
Definition expected_rows (files : list file) : nat :=
  list_sum (map (fun f => match content f with
                          | Some data => finding_count data
                          | None => 0%nat
                          end) files).

(** A sidebar selection that picks nothing, or every choice offered. *)
Definition nothing_or_all (col : string) (table : DataFrame) (values : list string) : Prop :=
  values = [] \/ options col table = Some values.

(** A text of ASCII characters only (codes below 128): the texts on which
    the case mappings of the embedding are those of Python's [str]. *)
Fixpoint is_ascii (s : string) : bool :=
  match s with
  | EmptyString => true
  | String c r => (nat_of_ascii c <? 128)%nat && is_ascii r
  end.

End Spec.

(* ===================================================================== *)
(** ** Concrete documents *)
(* ===================================================================== *)

Module Scenario.
Import PyStr Py Dashboard.

(** A file whose content is not JSON. *)
Definition broken_file : file := mkFile "guardduty-broken.json" None.

(** [{}]: a document without findings. *)
Definition inspector_file : file := mkFile "inspector-y.json" (Some (JDict [])).

(** [{"Findings": [{"Severity": 9}]}] *)
Definition guardduty_file : file :=
  mkFile "guardduty-x.json"
    (Some (JDict [("Findings", JList [JDict [("Severity", JInt 9)]])])).

(** [[]]: a document that is a JSON array, not a mapping. *)
Definition array_document : json := JList [].

(** [{"Findings": ["text"]}]: a finding element that is not a mapping. *)
Definition text_finding_document : json :=
  JDict [("Findings", JList [JStr "text"])].

(** [{"Findings": [{"Workflow": "NEW"}]}]: a [Workflow] that is not a
    mapping. *)
Definition text_workflow_document : json :=
  JDict [("Findings", JList [JDict [("Workflow", JStr "NEW")]])].




Definition no_selection : selection := mkSelection [] [] [].

(** A row with a title and a severity, for a table of three CRITICAL, two
    HIGH and one LOW record. *)
Definition finding_row (title severity : string) : row :=
  [ ("Service", JStr "Guardduty"); ("Severity", JStr severity);
    ("Title", JStr title); ("Team", JStr "CAPSA Team") ].

Definition severity_table : DataFrame :=
  mkDataFrame ["Service"; "Severity"; "Title"; "Team"]
    [ finding_row "a" "CRITICAL"; finding_row "b" "HIGH"; finding_row "c" "CRITICAL";
      finding_row "d" "LOW"; finding_row "e" "HIGH"; finding_row "f" "CRITICAL" ].

(** The same table with an INFORMATIONAL row at the end. *)
Definition informational_table : DataFrame :=
  mkDataFrame (columns severity_table)
    (rows severity_table ++ [finding_row "g" "INFORMATIONAL"]).


End Scenario.

(* ===================================================================== *)
(** ** Facts about text *)
(* ===================================================================== *)

Import PyStr Py Notations Dashboard Spec Scenario.

Section Text.

Lemma upper_char_idem (c : ascii) : upper_char (upper_char c) = upper_char c.
Proof. destruct c as [[] [] [] [] [] [] [] []]; reflexivity. Qed.

Lemma upper_idem (s : string) : upper (upper s) = upper s.
Proof.
  induction s as [| c r IH]; simpl; [reflexivity |].
  now rewrite upper_char_idem, IH.
Qed.




End Text.

(* ===================================================================== *)
(** ** Facts about the error monad and lists *)
(* ===================================================================== *)

Section Monad.

Context {A B : Type}.

Lemma bind_Ok (c : result A) (k : A -> result B) (b : B) :
  bind c k = Ok b -> exists a, c = Ok a /\ k a = Ok b.
Proof. destruct c as [a | e]; simpl; [eauto | discriminate]. Qed.

Lemma mapM_cons_Ok (f : A -> result B) (a : A) (l : list A) (bs : list B) :
  mapM f (a :: l) = Ok bs ->
  exists b bs', f a = Ok b /\ mapM f l = Ok bs' /\ bs = b :: bs'.
Proof.
  simpl. destruct (f a) as [b | e]; [| discriminate].
  destruct (mapM f l) as [bs' | e]; [| discriminate].
  intros [= <-]. eauto.
Qed.

Lemma mapM_Ok_Forall2 (f : A -> result B) (l : list A) (bs : list B) :
  mapM f l = Ok bs <-> Forall2 (fun a b => f a = Ok b) l bs.
Proof.
  split.
  - revert bs. induction l as [| a l IH]; intros bs H.
    + injection H as <-. constructor.
    + apply mapM_cons_Ok in H as (b & bs' & Hb & Hl & ->).
      constructor; auto.
  - induction 1 as [| a b l bs' Hab _ IH]; simpl; [reflexivity |].
    now rewrite Hab, IH.
Qed.

Lemma mapM_Ok_In (f : A -> result B) (l : list A) (bs : list B) (a : A) :
  mapM f l = Ok bs -> In a l -> exists b, f a = Ok b /\ In b bs.
Proof.
  rewrite mapM_Ok_Forall2. induction 1 as [| x y l' bs' Hxy _ IH]; simpl.
  - contradiction.
  - intros [<- | Hin]; [eauto |].
    destruct (IH Hin) as (b & Hb & Hbin). eauto.
Qed.

Lemma mapM_Ok_In_inv (f : A -> result B) (l : list A) (bs : list B) (b : B) :
  mapM f l = Ok bs -> In b bs -> exists a, In a l /\ f a = Ok b.
Proof.
  rewrite mapM_Ok_Forall2. induction 1 as [| x y l' bs' Hxy _ IH]; simpl.
  - contradiction.
  - intros [<- | Hin]; [eauto |].
    destruct (IH Hin) as (a & Ha & Hab). eauto.
Qed.

End Monad.

Section Lists.

Context {A : Type}.

Lemma filter_filter (p q : A -> bool) (l : list A) :
  filter q (filter p l) = filter (fun x => p x && q x) l.
Proof.
  induction l as [| x l IH]; simpl; [reflexivity |].
  destruct (p x); simpl; [destruct (q x) |]; now rewrite IH.
Qed.

Lemma filter_true (l : list A) : filter (fun _ => true) l = l.
Proof. induction l as [| x l IH]; simpl; [reflexivity | now rewrite IH]. Qed.

Lemma filter_subsequence (p : A -> bool) (l : list A) :
  subsequence (filter p l) l.
Proof.
  induction l as [| x l IH]; simpl; [constructor |].
  destruct (p x); now constructor.
Qed.

Lemma filter_length_split (p : A -> bool) (l : list A) :
  (length (filter p l) + length (filter (fun x => negb (p x)) l) = length l)%nat.
Proof.
  induction l as [| x l IH]; simpl; [reflexivity |].
  destruct (p x); simpl; lia.
Qed.

Lemma filter_nonempty_iff (p : A -> bool) (l : list A) :
  (0 < length (filter p l))%nat <-> exists x, In x l /\ p x = true.
Proof.
  split.
  - destruct (filter p l) as [| x r] eqn:E; simpl; [lia |].
    intros _. exists x. apply filter_In. rewrite E. now left.
  - intros (x & Hin & Hp).
    assert (Hx : In x (filter p l)) by (apply filter_In; auto).
    destruct (filter p l); [contradiction | simpl; lia].
Qed.

End Lists.

(* ===================================================================== *)
(** ** Severity normalization *)
(* ===================================================================== *)

Section Severity.

Lemma score_is_number (sev : json) (q : Q) :
  score sev = Some q -> isinstance_dict sev = false /\ isinstance_number sev = true.
Proof. destruct sev as [| b | z | [| n | x] t | s | l | d]; simpl; intros H; now try discriminate. Qed.

(** Python's [sev >= k] on a number decides the order of its value. *)
Lemma py_ge_score (sev : json) (q : Q) (k : Z) :
  score sev = Some q ->
  exists b, py_ge sev k = Ok b /\ (b = true <-> (inject_Z k <= q)%Q).
Proof.
  destruct sev as [| b | z | [| n | x] t | s | l | d]; simpl; intros H;
    try discriminate; injection H as <-; eexists; (split; [reflexivity |]).
  - now rewrite Z.leb_le, Zle_Qle.
  - now rewrite Z.leb_le, Zle_Qle.
  - apply Qle_bool_iff.
Qed.

(** The normalizer returns a value for every severity, whatever its shape. *)
Lemma sev_label_total (sev : json) : exists label, sev_label sev = Ok label.
Proof.
  unfold sev_label.
  destruct sev as [| b | z | [| n | x] t | s | l | d]; simpl; eauto;
    repeat match goal with
           | |- context [if ?c then _ else _] => destruct c; simpl
           end; eauto.
Qed.

(** A severity that is not a mapping is normalized to a text. *)
Lemma sev_label_str (sev : json) :
  isinstance_dict sev = false -> exists s, sev_label sev = Ok (JStr s).
Proof.
  unfold sev_label.
  destruct sev as [| b | z | [| n | x] t | s | l | d]; simpl; intros H;
    try discriminate; eauto;
    repeat match goal with
           | |- context [if ?c then _ else _] => destruct c; simpl
           end; eauto.
Qed.

(** C5.  For every numeric severity score [q] (an int, a finite float, or a
    bool read as 1 or 0) the normalizer returns "Critical" when [8 <= q],
    "High" when [5 <= q < 8], "Medium" when [3 <= q < 5] and "Low" when
    [q < 3]; the boundaries 8, 5 and 3 fall in the upper branch. *)
Theorem sev_label_numeric_thresholds (sev : json) (q : Q) :
  score sev = Some q ->
  ((8 <= q)%Q -> sev_label sev = Ok (JStr "Critical"))
  /\ ((5 <= q)%Q /\ (q < 8)%Q -> sev_label sev = Ok (JStr "High"))
  /\ ((3 <= q)%Q /\ (q < 5)%Q -> sev_label sev = Ok (JStr "Medium"))
  /\ ((q < 3)%Q -> sev_label sev = Ok (JStr "Low")).
Proof.
  intros Hs.
  destruct (score_is_number sev q Hs) as [Hd Hn].
  destruct (py_ge_score sev q 8 Hs) as (b8 & E8 & H8).
  destruct (py_ge_score sev q 5 Hs) as (b5 & E5 & H5).
  destruct (py_ge_score sev q 3 Hs) as (b3 & E3 & H3).
  unfold sev_label. rewrite Hd, Hn, E8, E5, E3. simpl.
  change (inject_Z 8) with 8%Q in H8.
  change (inject_Z 5) with 5%Q in H5.
  change (inject_Z 3) with 3%Q in H3.
  assert (L58 : (5 <= 8)%Q) by (unfold Qle; simpl; lia).
  assert (L35 : (3 <= 5)%Q) by (unfold Qle; simpl; lia).
  repeat split.
  - intros G. now rewrite (proj2 H8 G).
  - intros [G5 G8]. destruct b8.
    + exfalso. apply (Qlt_not_le _ _ G8). now apply H8.
    + now rewrite (proj2 H5 G5).
  - intros [G3 G5]. destruct b8.
    + exfalso. apply (Qlt_not_le _ _ G5).
      apply Qle_trans with 8%Q; [exact L58 | now apply H8].
    + destruct b5.
      * exfalso. apply (Qlt_not_le _ _ G5). now apply H5.
      * now rewrite (proj2 H3 G3).
  - intros G3.
    assert (N3 : ~ (3 <= q)%Q) by (apply Qlt_not_le; exact G3).
    destruct b8.
    + exfalso. apply N3. apply Qle_trans with 5%Q; [exact L35 |].
      apply Qle_trans with 8%Q; [exact L58 | now apply H8].
    + destruct b5.
      * exfalso. apply N3. apply Qle_trans with 5%Q; [exact L35 | now apply H5].
      * destruct b3; [exfalso; apply N3; now apply H3 | reflexivity].
Qed.

(** The thresholds at the boundary scores 8, 5 and 3, at a float just below
    8, and at 2. *)
Lemma sev_label_numeric_thresholds_witness :
  sev_label (JInt 8) = Ok (JStr "Critical")
  /\ sev_label (JInt 5) = Ok (JStr "High")
  /\ sev_label (JInt 3) = Ok (JStr "Medium")
  /\ sev_label (JFloat (Ffin (15 # 2)) "7.5") = Ok (JStr "High")
  /\ sev_label (JInt 2) = Ok (JStr "Low").
Proof.
  split; [| split; [| split; [| split]]].
  - apply (sev_label_numeric_thresholds (JInt 8) 8%Q eq_refl).
    unfold Qle; simpl; lia.
  - apply (sev_label_numeric_thresholds (JInt 5) 5%Q eq_refl).
    split; [unfold Qle | unfold Qlt]; simpl; lia.
  - apply (sev_label_numeric_thresholds (JInt 3) 3%Q eq_refl).
    split; [unfold Qle | unfold Qlt]; simpl; lia.
  - apply (sev_label_numeric_thresholds (JFloat (Ffin (15 # 2)) "7.5") (15 # 2)%Q eq_refl).
    split; [unfold Qle | unfold Qlt]; simpl; lia.
  - apply (sev_label_numeric_thresholds (JInt 2) 2%Q eq_refl).
    unfold Qlt; simpl; lia.
Defined.

End Severity.

(* ===================================================================== *)
(** ** Derived attributes *)
(* ===================================================================== *)

Section Derived.

Lemma fix_timeline_range (s : string) :
  exists t, fix_timeline (JStr s) = Ok (JStr t)
            /\ In t ["5 Days"; "1 Week"; "2 Weeks"; "3 Weeks"; "N/A"].
Proof.
  unfold fix_timeline; simpl.
  repeat match goal with
         | |- context [if ?c then _ else _] => destruct c
         end; eexists; (split; [reflexivity | simpl; tauto]).
Qed.

Lemma fix_cost_range (s : string) :
  exists t, fix_cost (JStr s) = Ok (JStr t)
            /\ In t ["$250/hour"; "$150/hour"; "$75/hour"; "$25/hour"; "Minimal"].
Proof.
  unfold fix_cost; simpl.
  repeat match goal with
         | |- context [if ?c then _ else _] => destruct c
         end; eexists; (split; [reflexivity | simpl; tauto]).
Qed.

Lemma team_map_range (service : json) :
  exists t, team_map service = JStr t
            /\ In t ["CAPSA Team"; "BCG Team"; "Both BCG & CAPSA Team"; "Others"].
Proof.
  unfold team_map; cbv zeta.
  repeat match goal with
         | |- context [if ?c then _ else _] => destruct c
         end; eexists; (split; [reflexivity | simpl; tauto]).
Qed.






End Derived.

(* ===================================================================== *)
(** ** The filter engine *)
(* ===================================================================== *)

Section Filter.

Lemma isin_spec (v : json) (values : list string) :
  isin v values = true <-> exists s, v = JStr s /\ In s values.
Proof.
  destruct v as [| b | z | x t | s | l | d]; simpl;
    try (split; [discriminate | intros (s' & E & _); discriminate]).
  rewrite existsb_exists. split.
  - intros (x & Hin & E). apply String.eqb_eq in E. subst x. eauto.
  - intros (s' & [= <-] & Hin). exists s. split; [exact Hin | apply String.eqb_refl].
Qed.

Lemma allowsb_spec (values : list string) (v : json) :
  allowsb values v = true <-> allows values v.
Proof.
  unfold allows. destruct values as [| x r].
  - simpl. split; [intros _ H; now contradiction H | reflexivity].
  - unfold allowsb. rewrite isin_spec. split.
    + intros H _. exact H.
    + intros H. apply H. discriminate.
Qed.

Lemma survivesb_spec (sel : selection) (r : row) :
  survivesb sel r = true <-> survives sel r.
Proof.
  unfold survivesb, survives.
  now rewrite !andb_true_iff, !allowsb_spec.
Qed.

Lemma allowsb_nonempty (values : list string) (v : json) :
  allowsb values v = if nonempty values then isin v values else true.
Proof. now destruct values. Qed.

(** The chain of conditional selections is one pass keeping the surviving
    rows. *)
Lemma filtered_rows (df : DataFrame) (sel : selection) :
  rows (filtered df sel) = filter (survivesb sel) (rows df).
Proof.
  unfold filtered, survivesb. cbv zeta.
  destruct sel as [[| s1 l1] [| s2 l2] [| s3 l3]];
    cbn [allowsb nonempty selected_services selected_severity selected_team
         rows columns select_rows];
    rewrite ?filter_filter;
    try (apply filter_ext; intros r;
         rewrite ?andb_true_r, ?andb_true_l, ?andb_assoc; reflexivity).
  symmetry. apply filter_true.
Qed.

Lemma filtered_columns (df : DataFrame) (sel : selection) :
  columns (filtered df sel) = columns df.
Proof.
  unfold filtered. cbv zeta.
  destruct (nonempty (selected_services sel)),
    (nonempty (selected_severity sel)),
    (nonempty (selected_team sel)); reflexivity.
Qed.

(** C7.  A record is in the filtered view iff it is in the table and, for
    each selection that is not empty, its field is one of the selected
    values; an empty selection constrains nothing; the view is the table
    with the other records removed, so order and duplicates are kept; with
    three empty selections the view is the table itself. *)
Theorem filtered_contract (df : DataFrame) (sel : selection) :
  (forall r, In r (rows (filtered df sel)) <-> In r (rows df) /\ survives sel r)
  /\ rows (filtered df sel) = filter (survivesb sel) (rows df)
  /\ subsequence (rows (filtered df sel)) (rows df)
  /\ columns (filtered df sel) = columns df
  /\ (forall r, selected_services sel = [] -> selected_severity sel = [] ->
                selected_team sel = [] -> survives sel r)
  /\ filtered df (mkSelection [] [] []) = df.
Proof.
  split; [| split; [| split; [| split; [| split]]]].
  - intros r. rewrite filtered_rows, filter_In, survivesb_spec. tauto.
  - apply filtered_rows.
  - rewrite filtered_rows. apply filter_subsequence.
  - apply filtered_columns.
  - intros r H1 H2 H3. unfold survives, allows. rewrite H1, H2, H3.
    repeat split; intros H; now contradiction H.
  - reflexivity.
Qed.

(** Selecting CRITICAL in a table of three CRITICAL, two HIGH and one LOW
    record keeps the three CRITICAL records in their order; selecting
    nothing keeps the table. *)
Lemma filtered_contract_witness :
  rows (filtered severity_table (mkSelection [] ["CRITICAL"] []))
  = [finding_row "a" "CRITICAL"; finding_row "c" "CRITICAL"; finding_row "f" "CRITICAL"]
  /\ survives no_selection (finding_row "d" "LOW")
  /\ filtered severity_table no_selection = severity_table.
Proof.
  split; [| split].
  - exact (eq_trans
             (proj1 (proj2 (filtered_contract severity_table
                              (mkSelection [] ["CRITICAL"] []))))
             eq_refl).
  - exact (proj1 (proj2 (proj2 (proj2 (proj2 (filtered_contract severity_table
                                                 no_selection)))))
             (finding_row "d" "LOW") eq_refl eq_refl eq_refl).
  - exact (proj2 (proj2 (proj2 (proj2 (proj2 (filtered_contract severity_table
                                                 no_selection)))))).
Defined.

End Filter.

(* ===================================================================== *)
(** ** The summary metrics *)
(* ===================================================================== *)

Section Metrics.

Lemma recognizedb_spec (v : json) : recognizedb v = true <-> recognized v.
Proof.
  unfold recognizedb, recognized.
  destruct v as [| b | z | x t | s | l | d]; simpl;
    try (split; [discriminate | intros [H | [H | [H | H]]]; discriminate]).
  rewrite !orb_true_iff, !String.eqb_eq.
  split.
  - intros [[-> | ->] | [-> | [-> | F]]]; auto. discriminate.
  - intros [[= ->] | [[= ->] | [[= ->] | [= ->]]]]; auto.
Qed.

(** The three severity counts partition the recognized rows. *)
Lemma severity_counts (l : list row) :
  (length (filter (fun r => eq_str (cell r "Severity") "CRITICAL") l)
   + length (filter (fun r => eq_str (cell r "Severity") "HIGH") l)
   + length (filter (fun r => isin (cell r "Severity") ["MEDIUM"; "LOW"]) l)
   = length (filter (fun r => recognizedb (cell r "Severity")) l))%nat.
Proof.
  induction l as [| r l IH]; simpl; [reflexivity |].
  unfold recognizedb at 1.
  destruct (cell r "Severity") as [| b | z | x t | s | ll | d]; simpl; try exact IH.
  destruct (String.eqb_spec s "CRITICAL") as [-> | N1]; simpl; [lia |].
  destruct (String.eqb_spec s "HIGH") as [-> | N2]; simpl; [lia |].
  destruct (String.eqb_spec s "MEDIUM") as [-> | N3]; simpl; [lia |].
  destruct (String.eqb_spec s "LOW") as [-> | N4]; simpl; lia.
Qed.

(** C10.  In every view the Critical, High and Medium/Low counts add up to
    at most the total, and to less than the total exactly when the view has
    a record whose severity is none of CRITICAL, HIGH, MEDIUM, LOW. *)
Theorem metrics_sum (view : DataFrame) :
  (critical_count view + high_count view + medium_low_count view
   <= total_findings view)%nat
  /\ ((critical_count view + high_count view + medium_low_count view
       < total_findings view)%nat
      <-> exists r, In r (rows view) /\ ~ recognized (cell r "Severity")).
Proof.
  unfold critical_count, high_count, medium_low_count, total_findings, len; simpl.
  rewrite severity_counts.
  pose proof (filter_length_split (fun r => recognizedb (cell r "Severity")) (rows view)) as S.
  cbv beta in S.
  set (known := length (filter (fun r => recognizedb (cell r "Severity")) (rows view))) in *.
  set (other := length (filter (fun r => negb (recognizedb (cell r "Severity"))) (rows view))) in *.
  split; [lia |].
  rewrite <- S.
  split.
  - intros H.
    assert (P : (0 < length (filter (fun r => negb (recognizedb (cell r "Severity")))
                           (rows view)))%nat) by lia.
    apply filter_nonempty_iff in P as (r & Hin & Hr).
    exists r. split; [exact Hin |].
    rewrite <- recognizedb_spec. apply negb_true_iff in Hr. now rewrite Hr.
  - intros (r & Hin & Hr).
    assert (P : (0 < length (filter (fun r => negb (recognizedb (cell r "Severity")))
                           (rows view)))%nat).
    { apply filter_nonempty_iff. exists r. split; [exact Hin |].
      apply negb_true_iff. rewrite <- recognizedb_spec in Hr.
      now destruct (recognizedb (cell r "Severity")). }
    lia.
Qed.

(** With an INFORMATIONAL row the three counts add up to less than the
    total. *)
Lemma metrics_sum_witness :
  (critical_count informational_table + high_count informational_table
   + medium_low_count informational_table < total_findings informational_table)%nat.
Proof.
  apply (proj2 (metrics_sum informational_table)).
  exists (finding_row "g" "INFORMATIONAL"). split.
  - apply in_or_app. right. left. reflexivity.
  - intros [H | [H | [H | H]]]; discriminate H.
Defined.

End Metrics.

(* ===================================================================== *)
(** ** Record extraction *)
(* ===================================================================== *)

Section Extraction.

Lemma mapM_Ok_forallb {A B : Type} (f : A -> result B) (p : A -> bool) (l : list A) :
  (forall a, (exists b, f a = Ok b) <-> p a = true) ->
  (exists bs, mapM f l = Ok bs) <-> forallb p l = true.
Proof.
  intros Hp. induction l as [| a l IH]; simpl.
  - split; eauto.
  - rewrite andb_true_iff, <- IH, <- Hp. split.
    + destruct (f a) as [b | e]; [| intros [bs H]; discriminate].
      destruct (mapM f l) as [bs' | e]; [eauto | intros [bs H]; discriminate].
    + intros [[b ->] [bs ->]]. eauto.
Qed.

Lemma mapM_nonempty {A B : Type} (f : A -> result B) (l : list A) (bs : list B) :
  mapM f l = Ok bs -> l <> [] -> bs <> [].
Proof.
  destruct l as [| a l]; [intros _ H; now contradiction H |].
  intros H _. apply mapM_cons_Ok in H as (b & bs' & _ & _ & ->). discriminate.
Qed.

(** The record of a finding that is a mapping with a usable [Workflow]. *)
Lemma finding_record_dict (service : string) (d : list (string * json)) :
  finding_ok (JDict d) = true ->
  exists account region resource label title description status created_at,
    finding_record service (JDict d)
    = Ok (make_record service account region resource label title description
            status created_at).
Proof.
  intros Hok. unfold finding_record. cbn [py_get bind].
  match goal with
  | |- context [sev_label ?x] => destruct (sev_label_total x) as [label ->]
  end.
  cbn [bind]. unfold finding_ok in Hok.
  destruct (lookup "Workflow" d) as [w |].
  - destruct w; try discriminate. cbn [isinstance_dict py_get bind].
    unfold make_record. repeat eexists.
  - cbn [isinstance_dict py_get bind lookup].
    unfold make_record. repeat eexists.
Qed.

Lemma finding_record_Ok_iff (service : string) (fnd : json) :
  (exists r, finding_record service fnd = Ok r) <-> finding_ok fnd = true.
Proof.
  split.
  - intros [r H]. destruct fnd as [| b | z | x t | s | l | d];
      try discriminate H.
    unfold finding_record in H. cbn [py_get bind] in H.
    match type of H with
    | context [sev_label ?x] => destruct (sev_label_total x) as [label E]
    end.
    rewrite E in H. cbn [bind] in H. unfold finding_ok.
    destruct (lookup "Workflow" d) as [w |]; [| reflexivity].
    destruct w; try reflexivity; discriminate H.
  - intros H. destruct fnd as [| b | z | x t | s | l | d]; try discriminate H.
    destruct (finding_record_dict service d H)
      as (a & g & x & lb & t & ds & st & c & E).
    eauto.
Qed.

Lemma finding_record_shape (service : string) (fnd : json) (r : row) :
  finding_record service fnd = Ok r -> record_shape r.
Proof.
  intros H.
  assert (Hok : finding_ok fnd = true) by (apply (finding_record_Ok_iff service); eauto).
  destruct fnd as [| b | z | x t | s | l | d]; try discriminate Hok.
  destruct (finding_record_dict service d Hok)
    as (a & g & x & lb & t & ds & st & c & E).
  rewrite E in H. injection H as <-.
  unfold record_shape. repeat eexists.
Qed.

Lemma placeholder_record_shape (service : string) :
  record_shape (placeholder_record service).
Proof. unfold record_shape, placeholder_record, make_record. repeat eexists. Qed.

(** What line 26 reads is the findings entry, or the empty list. *)
Lemma findings_of_dict (d : list (string * json)) :
  findings_of (JDict d)
  = Ok (match findings_entry (JDict d) with Some v => v | None => JList [] end).
Proof.
  unfold findings_of, findings_entry. cbn [py_get bind].
  destruct (lookup "Findings" d); [reflexivity |].
  destruct (lookup "findings" d); reflexivity.
Qed.

Lemma extract_absent_or_empty (service : string) (d : list (string * json)) :
  absent_or_empty (JDict d) = true ->
  extract service (JDict d) = Ok [placeholder_record service].
Proof.
  unfold extract, absent_or_empty. rewrite findings_of_dict. cbn [bind].
  destruct (findings_entry (JDict d)) as [v |].
  - intros H. apply negb_true_iff in H. now rewrite H.
  - reflexivity.
Qed.

Lemma truthy_iter_nonempty (v : json) (elements : list json) :
  truthy v = true -> py_iter v = Ok elements -> elements <> [].
Proof.
  destruct v as [| b | z | x t | s | l | d]; simpl; intros T H;
    try discriminate H; injection H as <-.
  - destruct s; [discriminate T | discriminate].
  - destruct l; [discriminate T | discriminate].
  - destruct d; [discriminate T | discriminate].
Qed.

(** Extraction never succeeds with no record. *)
Lemma extract_nonempty (service : string) (data : json) (records : list row) :
  extract service data = Ok records -> records <> [].
Proof.
  unfold extract. intros H.
  apply bind_Ok in H as (findings & _ & H).
  destruct (truthy findings) eqn:T.
  - apply bind_Ok in H as (elements & Hi & H).
    apply (mapM_nonempty _ _ _ H).
    now apply (truthy_iter_nonempty findings).
  - injection H as <-. discriminate.
Qed.

Lemma extract_shape (service : string) (data : json) (records : list row) :
  extract service data = Ok records -> Forall record_shape records.
Proof.
  unfold extract. intros H.
  apply bind_Ok in H as (findings & _ & H).
  destruct (truthy findings).
  - apply bind_Ok in H as (elements & _ & H).
    apply Forall_forall. intros r Hr.
    destruct (mapM_Ok_In_inv _ _ _ _ H Hr) as (fnd & _ & E).
    now apply finding_record_shape in E.
  - injection H as <-. constructor; [apply placeholder_record_shape | constructor].
Qed.

Lemma mapM_str_elements (service : string) (l : list string) :
  l <> [] -> forall records, mapM (finding_record service) (map JStr l) <> Ok records.
Proof.
  destruct l as [| s l]; [intros H; now contradiction H |].
  intros _ records. simpl. discriminate.
Qed.

(** Extraction succeeds exactly on the well-shaped documents. *)
Lemma extract_Ok_iff (service : string) (data : json) :
  (exists records, extract service data = Ok records) <-> well_shaped data = true.
Proof.
  destruct data as [| b | z | x t | s | l | d];
    try (split; [intros [records H]; discriminate H | discriminate]).
  unfold extract, well_shaped. rewrite findings_of_dict. cbn [bind].
  destruct (findings_entry (JDict d)) as [v |]; [| simpl; split; eauto].
  destruct (truthy v) eqn:T; [| split; eauto].
  destruct v as [| b | z | x t | s | l | d']; simpl;
    try (split; [intros [records H]; discriminate H | discriminate]).
  - split; [intros [records H] | discriminate].
    exfalso. apply (mapM_str_elements service (chars s)) with records; [| exact H].
    destruct s; [discriminate T | discriminate].
  - apply mapM_Ok_forallb. intros fnd. apply finding_record_Ok_iff.
  - split; [intros [records H] | discriminate].
    exfalso. rewrite <- (map_map fst JStr) in H.
    apply (mapM_str_elements service (map fst d')) with records; [| exact H].
    destruct d'; [discriminate T | discriminate].
Qed.

End Extraction.

(* ===================================================================== *)
(** ** The loading loop *)
(* ===================================================================== *)

Section Loading.

Lemma load_records_cons_Ok (f : file) (rest : list file) (records : list row) :
  load_records (f :: rest) = Ok records ->
  exists data added later,
    content f = Some data
    /\ extract (service_name (file_name f)) data = Ok added
    /\ load_records rest = Ok later
    /\ records = added ++ later.
Proof.
  cbn [load_records]. intros H.
  apply bind_Ok in H as (data & Hd & H).
  apply bind_Ok in H as (added & Ha & H).
  apply bind_Ok in H as (later & Hl & H).
  injection H as <-.
  unfold json_load in Hd. destruct (content f) as [data' |]; [| discriminate].
  injection Hd as ->. exists data, added, later. auto.
Qed.

Lemma load_records_shape (files : list file) (records : list row) :
  load_records files = Ok records -> Forall record_shape records.
Proof.
  revert records. induction files as [| f rest IH]; intros records H.
  - injection H as <-. constructor.
  - apply load_records_cons_Ok in H as (data & added & later & _ & Ha & Hl & ->).
    apply Forall_app. split; [now apply extract_shape in Ha | now apply IH].
Qed.

(** Every file of a run that loads has parsed and been extracted, and its
    records are among the loaded ones. *)
Lemma load_records_In (files : list file) (records : list row) (f : file) :
  load_records files = Ok records -> In f files ->
  exists data added,
    content f = Some data
    /\ extract (service_name (file_name f)) data = Ok added
    /\ incl added records.
Proof.
  revert records. induction files as [| g rest IH]; intros records H Hin.
  - contradiction.
  - apply load_records_cons_Ok in H as (data & added & later & Hc & Ha & Hl & ->).
    destruct Hin as [-> | Hin].
    + exists data, added. repeat split; auto. now apply incl_appl, incl_refl.
    + destruct (IH later Hl Hin) as (data' & added' & Hc' & Ha' & Hi).
      exists data', added'. repeat split; auto. now apply incl_appr.
Qed.

(** The loop stops at the first document that is not JSON. *)
Lemma load_records_decode_error (before : list file) (f : file) (after : list file)
  (records : list row) :
  load_records before = Ok records -> content f = None ->
  load_records (before ++ f :: after) = Raise JSONDecodeError.
Proof.
  revert records. induction before as [| g before IH]; intros records H Hf.
  - cbn [app load_records]. unfold json_load. now rewrite Hf.
  - apply load_records_cons_Ok in H as (data & added & later & Hc & Ha & Hl & ->).
    cbn [app load_records]. unfold json_load. rewrite Hc. cbn [bind].
    rewrite Ha. cbn [bind]. now rewrite (IH later Hl Hf).
Qed.

Lemma load_records_not_json (files : list file) (f : file) (records : list row) :
  In f files -> content f = None -> load_records files <> Ok records.
Proof.
  intros Hin Hf H.
  destruct (load_records_In files records f H Hin) as (data & _ & Hc & _).
  congruence.
Qed.

End Loading.

(* ===================================================================== *)
(** ** The table *)
(* ===================================================================== *)

Section Table.

Lemma union_keys_shape (records : list row) :
  Forall record_shape records -> records <> [] -> union_keys records = record_keys.
Proof.
  unfold union_keys. intros Hs Hn.
  assert (G : forall ks, ks = [] \/ ks = record_keys ->
                         records = [] \/
                         fold_left (fun ks r => fold_left add_key (map fst r) ks) records ks
                         = record_keys).
  { clear Hn. induction Hs as [| r rest Hr _ IH]; intros ks Hks; [now left |].
    right. cbn [fold_left].
    assert (E : fold_left add_key (map fst r) ks = record_keys).
    { destruct Hr as (sv & a & g & x & lb & t & ds & st & c & ->).
      destruct Hks as [-> | ->]; reflexivity. }
    rewrite E. destruct (IH record_keys (or_intror eq_refl)) as [-> | ->]; reflexivity. }
  destruct (G [] (or_introl eq_refl)) as [E | E]; [now contradiction Hn | exact E].
Qed.

Lemma reindex_record (r : row) : record_shape r -> reindex record_keys r = r.
Proof. intros (sv & a & g & x & lb & t & ds & st & c & ->). reflexivity. Qed.

(** Line 70 on the loaded records: the nine keys as columns, the records
    as rows. *)
Lemma pd_DataFrame_records (records : list row) :
  Forall record_shape records -> records <> [] ->
  pd_DataFrame records = mkDataFrame record_keys records.
Proof.
  intros Hs Hn. unfold pd_DataFrame. rewrite (union_keys_shape records Hs Hn). f_equal.
  clear Hn. induction Hs as [| r rest Hr _ IH]; [reflexivity |].
  cbn [map]. now rewrite (reindex_record r Hr), IH.
Qed.

Lemma assign_Ok (col src : string) (f : json -> result json) (frame table : DataFrame) :
  assign col src f frame = Ok table ->
  columns table = add_key (columns frame) col
  /\ mapM (fun r => v <- f (cell r src) ;; Ok (set_cell col v r)) (rows frame)
     = Ok (rows table).
Proof.
  unfold assign. intros H. apply bind_Ok in H as (new_rows & Hm & H).
  injection H as <-. auto.
Qed.

Lemma mapM_compose {A B C : Type} (f : A -> result B) (g : B -> result C)
  (h : A -> result C) (l : list A) (l1 : list B) (l2 : list C) :
  (forall a b c, f a = Ok b -> g b = Ok c -> h a = Ok c) ->
  mapM f l = Ok l1 -> mapM g l1 = Ok l2 -> mapM h l = Ok l2.
Proof.
  intros Hh. revert l1 l2. induction l as [| a l IH]; intros l1 l2 H1 H2.
  - injection H1 as <-. exact H2.
  - apply mapM_cons_Ok in H1 as (b & l1' & Hb & Hl & ->).
    apply mapM_cons_Ok in H2 as (c & l2' & Hc & Hl2 & ->).
    cbn [mapM]. now rewrite (Hh a b c Hb Hc), (IH l1' l2' Hl Hl2).
Qed.

(** The table is the loaded records, each taken through lines 76-118. *)
Lemma df_rows (files : list file) (table : DataFrame) :
  df files = Ok table ->
  exists records,
    load_records files = Ok records
    /\ records <> []
    /\ columns table = table_columns
    /\ mapM derive_row records = Ok (rows table).
Proof.
  unfold df. intros H. apply bind_Ok in H as (records & Hl & H).
  exists records. split; [exact Hl |].
  pose proof (load_records_shape files records Hl) as Hs.
  destruct records as [| r0 rest] eqn:Er.
  { discriminate H. }
  rewrite <- Er in *. assert (Hn : records <> []) by (rewrite Er; discriminate).
  split; [exact Hn |].
  rewrite (pd_DataFrame_records records Hs Hn) in H.
  replace (empty (mkDataFrame record_keys records)) with false in H
    by (rewrite Er; reflexivity).
  apply bind_Ok in H as (t1 & H1 & H).
  apply bind_Ok in H as (t2 & H2 & H).
  apply bind_Ok in H as (t3 & H3 & H4).
  apply assign_Ok in H1 as [C1 M1], H2 as [C2 M2], H3 as [C3 M3], H4 as [C4 M4].
  split.
  - rewrite C4, C3, C2, C1. reflexivity.
  - cbn [rows] in M1.
    assert (M12 : mapM (fun r =>
                          let r1 := set_cell "Severity" (str_upper (cell r "Severity")) r in
                          Ok (set_cell "Team" (team_map (cell r1 "Service")) r1))
                    records = Ok (rows t2)).
    { refine (mapM_compose _ _ _ _ _ _ _ M1 M2).
      intros a b c Hb Hc. cbn [bind] in Hb, Hc. injection Hb as <-. exact Hc. }
    assert (M123 : mapM (fun r =>
                           let r1 := set_cell "Severity" (str_upper (cell r "Severity")) r in
                           let r2 := set_cell "Team" (team_map (cell r1 "Service")) r1 in
                           timeline <- fix_timeline (cell r2 "Severity") ;;
                           Ok (set_cell "Fix Timeline" timeline r2))
                     records = Ok (rows t3)).
    { refine (mapM_compose _ _ _ _ _ _ _ M12 M3).
      intros a b c Hb Hc. cbv zeta in Hb. injection Hb as <-. exact Hc. }
    refine (mapM_compose _ _ _ _ _ _ _ M123 M4).
    intros a b c Hb Hc. unfold derive_row. cbv zeta in Hb |- *.
    apply bind_Ok in Hb as (timeline & -> & Hb). injection Hb as <-.
    cbn [bind]. exact Hc.
Qed.

End Table.

Section Rows.

(** Lines 76-118 succeed on a record only when its severity label is a
    text, and then give a table row. *)
Lemma derive_row_record (sv : string) (a g : json) (x : string)
  (lb t ds st c : json) (r' : row) :
  derive_row (make_record sv a g x lb t ds st c) = Ok r' ->
  exists s team timeline cost,
    lb = JStr s
    /\ r' = make_table_row sv a g x (upper s) t ds st c team timeline cost
    /\ team_map (JStr sv) = JStr team
    /\ fix_timeline (JStr (upper s)) = Ok (JStr timeline)
    /\ fix_cost (JStr (upper s)) = Ok (JStr cost).
Proof.
  unfold derive_row, make_record. cbv zeta.
  cbn [set_cell cell lookup String.eqb Ascii.eqb Bool.eqb].
  destruct lb as [| b | z | y txt | s | l | d]; cbn [str_upper];
    try (intros H; discriminate H).
  destruct (team_map_range (JStr sv)) as (team & Et & _).
  destruct (fix_timeline_range (upper s)) as (timeline & Ef & _).
  destruct (fix_cost_range (upper s)) as (cost & Ec & _).
  rewrite Et, Ef. cbn [bind]. rewrite Ec. cbn [bind].
  cbn [set_cell String.eqb Ascii.eqb Bool.eqb].
  intros [= <-]. exists s, team, timeline, cost. auto.
Qed.

Lemma derive_row_shape (r r' : row) :
  record_shape r -> derive_row r = Ok r' -> table_row_shape r'.
Proof.
  intros (sv & a & g & x & lb & t & ds & st & c & ->) H.
  apply derive_row_record in H as (s & team & timeline & cost & -> & -> & Et & Ef & Ec).
  exists sv, a, g, x, (upper s), t, ds, st, c, team, timeline, cost.
  repeat split; auto. apply upper_idem.
Qed.

Lemma derive_row_placeholder (service : string) :
  exists team,
    derive_row (placeholder_record service) = Ok (placeholder_table_row service team)
    /\ team_map (JStr service) = JStr team.
Proof.
  destruct (team_map_range (JStr service)) as (team & Et & _).
  exists team. split; [| exact Et].
  unfold derive_row, placeholder_record. cbv zeta.
  cbn [set_cell cell lookup String.eqb Ascii.eqb Bool.eqb].
  rewrite Et. reflexivity.
Qed.

(** Every row of the table has the table-row shape. *)
Lemma df_row_shape (files : list file) (table : DataFrame) (r : row) :
  df files = Ok table -> In r (rows table) -> table_row_shape r.
Proof.
  intros H Hin.
  destruct (df_rows files table H) as (records & Hl & _ & _ & Hm).
  destruct (mapM_Ok_In_inv _ _ _ _ Hm Hin) as (r0 & Hin0 & Hd).
  apply (derive_row_shape r0 r); [| exact Hd].
  pose proof (load_records_shape files records Hl) as Hs.
  rewrite Forall_forall in Hs. now apply Hs.
Qed.

Lemma table_row_cells (r : row) :
  table_row_shape r ->
  map fst r = table_columns /\ map (cell r) table_columns = map snd r.
Proof.
  intros (sv & a & g & x & s & t & ds & st & c & tm & tl & co & -> & _).
  split; reflexivity.
Qed.

End Rows.

(* ===================================================================== *)
(** ** The pipeline properties *)
(* ===================================================================== *)

Section Pipeline.

(** C1, as the code behaves.  The loading loop has no handler: when one of
    the documents is not JSON the run builds no table; and when the
    documents before it loaded, the run ends at that document with the
    decode error, whatever documents come after it. *)
Theorem decode_error_ends_run (files : list file) (f : file) :
  In f files -> content f = None ->
  (forall table, df files <> Ok table)
  /\ (forall before after records,
         files = before ++ f :: after ->
         load_records before = Ok records ->
         load_records files = Raise JSONDecodeError
         /\ df files = Raise JSONDecodeError).
Proof.
  intros Hin Hf. split.
  - intros table H. unfold df in H.
    apply bind_Ok in H as (records & Hl & _).
    exact (load_records_not_json files f records Hin Hf Hl).
  - intros before after records -> H.
    pose proof (load_records_decode_error before f after records H Hf) as E.
    split; [exact E |]. unfold df. now rewrite E.
Qed.

Lemma decode_error_ends_run_witness :
  In broken_file [inspector_file; broken_file; guardduty_file]
  /\ content broken_file = None
  /\ df [inspector_file; broken_file; guardduty_file] = Raise JSONDecodeError.
Proof.
  split; [right; left; reflexivity |]. split; [reflexivity |].
  exact (proj2 (proj2 (decode_error_ends_run
                         [inspector_file; broken_file; guardduty_file] broken_file
                         (or_intror (or_introl eq_refl)) eq_refl)
                  [inspector_file] [guardduty_file] [placeholder_record "Inspector"]
                  eq_refl eq_refl)).
Defined.

(** C1 fails as stated: with a document that is not JSON followed by one
    that is, no records of the second are aggregated; the run raises, though
    the second document alone loads. *)
Lemma decode_error_aborts_remaining :
  load_records [inspector_file] = Ok [placeholder_record "Inspector"]
  /\ load_records [broken_file; inspector_file] = Raise JSONDecodeError
  /\ df [broken_file; inspector_file] = Raise JSONDecodeError
  /\ ~ (exists table, df [broken_file; inspector_file] = Ok table).
Proof.
  repeat split; try reflexivity.
  intros [table H]. discriminate H.
Qed.

(** C2, as the code behaves.  Severity normalization returns a label for a
    severity of any shape.  Record extraction succeeds exactly on the
    documents that are mappings whose findings entry is absent, empty, or a
    list of mappings whose [Workflow], when present, is a mapping; on every
    other document it raises. *)
Theorem extraction_raises_outside_well_shaped :
  (forall sev, exists label, sev_label sev = Ok label)
  /\ (forall service data,
         (exists records, extract service data = Ok records) <-> well_shaped data = true)
  /\ (forall service data,
         well_shaped data = false -> exists e, extract service data = Raise e).
Proof.
  split; [exact sev_label_total |].
  split; [exact extract_Ok_iff |].
  intros service data H.
  destruct (extract service data) as [records | e] eqn:E; [| eauto].
  assert (W : well_shaped data = true) by (apply (extract_Ok_iff service); eauto).
  congruence.
Qed.

Lemma extraction_raises_outside_well_shaped_witness :
  well_shaped text_workflow_document = false
  /\ exists e, extract "Guardduty" text_workflow_document = Raise e.
Proof.
  split; [reflexivity |].
  exact (proj2 (proj2 extraction_raises_outside_well_shaped)
           "Guardduty" text_workflow_document eq_refl).
Defined.

(** C2 fails as stated: a document that is an array, a finding element that
    is a text and a [Workflow] that is a text each make extraction raise. *)
Lemma extraction_raises_on_malformed_shapes :
  extract "Guardduty" array_document = Raise AttributeError
  /\ extract "Guardduty" text_finding_document = Raise AttributeError
  /\ extract "Guardduty" text_workflow_document = Raise AttributeError.
Proof. repeat split. Qed.




(** C4, as the code behaves.  The sheet holds a header row and one row per
    record of the filtered view, in order, with no index column; its columns
    are the twelve columns of the table in the table's order, every cell of
    every row.  The ten-column projection is what the page table shows. *)
Theorem excel_sheet_contents (files : list file) (table : DataFrame) (sel : selection) :
  df files = Ok table ->
  excel_sheet (filtered table sel)
  = map JStr table_columns :: map (map snd) (rows (filtered table sel))
  /\ length (excel_sheet (filtered table sel)) = S (len (filtered table sel))
  /\ displayed (filtered table sel)
     = Ok (mkDataFrame display_columns
             (map (reindex display_columns) (rows (filtered table sel)))).
Proof.
  intros H.
  destruct (df_rows files table H) as (records & _ & _ & C & _).
  assert (Hc : columns (filtered table sel) = table_columns)
    by (now rewrite filtered_columns).
  split; [| split].
  - unfold excel_sheet, to_excel. rewrite Hc. f_equal.
    apply map_ext_in. intros r Hin.
    apply table_row_cells. apply (df_row_shape files table r H).
    rewrite filtered_rows in Hin. now apply filter_In in Hin.
  - unfold excel_sheet, to_excel, len. cbn [length]. now rewrite length_map.
  - unfold displayed, project. rewrite Hc. reflexivity.
Qed.

Lemma excel_sheet_contents_witness :
  exists table,
    df [guardduty_file; inspector_file] = Ok table
    /\ excel_sheet (filtered table (mkSelection [] ["CRITICAL"] []))
       = map JStr table_columns
           :: map (map snd) (rows (filtered table (mkSelection [] ["CRITICAL"] []))).
Proof.
  assert (H : exists table, df [guardduty_file; inspector_file] = Ok table)
    by (eexists; vm_compute; reflexivity).
  destruct H as [table H].
  exists table. split; [exact H |].
  exact (proj1 (excel_sheet_contents [guardduty_file; inspector_file] table
                  (mkSelection [] ["CRITICAL"] []) H)).
Defined.

(** C4 fails as stated: the header of the exported sheet is not the ten
    columns of the claim; it has twelve columns, with Account second. *)
Lemma excel_sheet_has_twelve_columns :
  exists table,
    df [guardduty_file; inspector_file] = Ok table
    /\ hd [] (excel_sheet (filtered table no_selection)) <> map JStr display_columns
    /\ length (hd [] (excel_sheet (filtered table no_selection))) = 12%nat
    /\ nth 1 (hd [] (excel_sheet (filtered table no_selection))) JNull = JStr "Account".
Proof.
  eexists. split; [vm_compute; reflexivity |].
  split; [discriminate | split; reflexivity].
Qed.

(** C6, as the code behaves.  For every document that is a mapping and
    whose findings entry is absent or empty, extraction gives exactly one
    record: the placeholder, with severity "Informational", status "N/A",
    a title and a description that name the service, and empty account,
    resource and creation time.  And whenever extraction succeeds it gives
    at least one record. *)
Theorem placeholder_for_empty_findings :
  (forall service d,
      absent_or_empty (JDict d) = true ->
      extract service (JDict d) = Ok [placeholder_record service]
      /\ cell (placeholder_record service) "Service" = JStr service
      /\ cell (placeholder_record service) "Severity" = JStr "Informational"
      /\ cell (placeholder_record service) "Status" = JStr "N/A"
      /\ cell (placeholder_record service) "Title"
         = JStr ("No critical findings for " ++ service)%string
      /\ cell (placeholder_record service) "Description"
         = JStr (service ++ " data loaded but no security findings reported.")%string
      /\ cell (placeholder_record service) "Account" = JStr EmptyString
      /\ cell (placeholder_record service) "Resource" = JStr EmptyString
      /\ cell (placeholder_record service) "CreatedAt" = JStr EmptyString)
  /\ (forall service data records,
         extract service data = Ok records -> records <> []).
Proof.
  split.
  - intros service d H.
    split; [now apply extract_absent_or_empty | repeat split].
  - exact extract_nonempty.
Qed.

Lemma placeholder_for_empty_findings_witness :
  absent_or_empty (JDict [("findings", JList [])]) = true
  /\ extract "Detective" (JDict [("findings", JList [])])
     = Ok [placeholder_record "Detective"].
Proof.
  split; [reflexivity |].
  exact (proj1 (proj1 placeholder_for_empty_findings "Detective"
                  [("findings", JList [])] eq_refl)).
Defined.

(** C6 fails as stated: a parsed document that is an array has no findings
    entry, and extraction raises on it instead of giving a placeholder. *)
Lemma no_placeholder_for_array_document :
  absent_or_empty array_document = true
  /\ extract "Detective" array_document = Raise AttributeError
  /\ ~ (exists records, extract "Detective" array_document = Ok records).
Proof.
  repeat split. intros [records H]. discriminate H.
Qed.

(** C9.  In every table the run produces, the placeholder record of each
    document without findings is a row with severity INFORMATIONAL, fix
    timeline "N/A" and cost "Minimal"; and every row whose severity is
    INFORMATIONAL has these two fallback values. *)
Theorem placeholder_fallback_values (files : list file) (table : DataFrame) :
  df files = Ok table ->
  (forall f d,
      In f files -> content f = Some (JDict d) -> absent_or_empty (JDict d) = true ->
      exists r,
        In r (rows table)
        /\ derive_row (placeholder_record (service_name (file_name f))) = Ok r
        /\ cell r "Severity" = JStr "INFORMATIONAL"
        /\ cell r "Fix Timeline" = JStr "N/A"
        /\ cell r "Cost to Fix (Est.)" = JStr "Minimal")
  /\ (forall r,
         In r (rows table) -> cell r "Severity" = JStr "INFORMATIONAL" ->
         cell r "Fix Timeline" = JStr "N/A"
         /\ cell r "Cost to Fix (Est.)" = JStr "Minimal").
Proof.
  intros H. split.
  - intros f d Hin Hc He.
    destruct (df_rows files table H) as (records & Hl & _ & _ & Hm).
    destruct (load_records_In files records f Hl Hin) as (data & added & Hc' & Ha & Hi).
    rewrite Hc in Hc'. injection Hc' as <-.
    rewrite (extract_absent_or_empty _ d He) in Ha. injection Ha as <-.
    assert (Hp : In (placeholder_record (service_name (file_name f))) records)
      by (apply Hi; now left).
    destruct (mapM_Ok_In _ _ _ _ Hm Hp) as (r & Hr & Hrin).
    exists r. split; [exact Hrin |]. split; [exact Hr |].
    destruct (derive_row_placeholder (service_name (file_name f))) as (team & E & _).
    rewrite E in Hr. injection Hr as <-. repeat split.
  - intros r Hin Hs.
    destruct (df_row_shape files table r H Hin)
      as (sv & a & g & x & s & t & ds & st & c & tm & tl & co & -> & _ & _ & Ef & Ec).
    unfold make_table_row in *.
    cbn [cell lookup String.eqb Ascii.eqb Bool.eqb] in *.
    injection Hs as ->.
    injection Ef as <-. injection Ec as <-. split; reflexivity.
Qed.

Lemma placeholder_fallback_values_witness :
  exists table r,
    df [guardduty_file; inspector_file] = Ok table
    /\ In r (rows table)
    /\ derive_row (placeholder_record "Inspector") = Ok r
    /\ cell r "Fix Timeline" = JStr "N/A"
    /\ cell r "Cost to Fix (Est.)" = JStr "Minimal".
Proof.
  assert (H : exists table, df [guardduty_file; inspector_file] = Ok table)
    by (eexists; vm_compute; reflexivity).
  destruct H as [table H].
  destruct (proj1 (placeholder_fallback_values [guardduty_file; inspector_file] table H)
              inspector_file [] (or_intror (or_introl eq_refl)) eq_refl eq_refl)
    as (r & Hin & Hd & _ & Hf & Hc).
  exists table, r. split; [exact H |].
  split; [exact Hin |].
  split; [exact Hd | split; [exact Hf | exact Hc]].
Defined.

End Pipeline.

(* ===================================================================== *)
(** ** Service names and teams *)
(* ===================================================================== *)

Section ServiceNames.

Lemma upper_of_lower_char (c : ascii) : upper_char (lower_char c) = upper_char c.
Proof. destruct c as [[] [] [] [] [] [] [] []]; reflexivity. Qed.

Lemma lower_of_upper_char (c : ascii) : lower_char (upper_char c) = lower_char c.
Proof. destruct c as [[] [] [] [] [] [] [] []]; reflexivity. Qed.

Lemma lower_char_idem (c : ascii) : lower_char (lower_char c) = lower_char c.
Proof. destruct c as [[] [] [] [] [] [] [] []]; reflexivity. Qed.

Lemma lower_idem (s : string) : lower (lower s) = lower s.
Proof.
  induction s as [| c r IH]; simpl; [reflexivity |].
  now rewrite lower_char_idem, IH.
Qed.

Lemma upper_of_lower (s : string) : upper (lower s) = upper s.
Proof.
  induction s as [| c r IH]; simpl; [reflexivity |].
  now rewrite upper_of_lower_char, IH.
Qed.

Lemma lower_of_upper (s : string) : lower (upper s) = lower s.
Proof.
  induction s as [| c r IH]; simpl; [reflexivity |].
  now rewrite lower_of_upper_char, IH.
Qed.

Lemma upper_capitalize (s : string) : upper (capitalize s) = upper s.
Proof.
  destruct s as [| c r]; simpl; [reflexivity |].
  now rewrite upper_char_idem, upper_of_lower.
Qed.

Lemma lower_capitalize (s : string) : lower (capitalize s) = lower s.
Proof.
  destruct s as [| c r]; simpl; [reflexivity |].
  now rewrite lower_of_upper_char, lower_idem.
Qed.

Lemma capitalize_idem (s : string) : capitalize (capitalize s) = capitalize s.
Proof.
  destruct s as [| c r]; simpl; [reflexivity |].
  now rewrite upper_char_idem, lower_idem.
Qed.

(** Case mapping neither makes nor removes a dash or a slash. *)
Lemma case_keeps_separator (c : ascii) :
  char_eqb (upper_char c) "-"%char = char_eqb c "-"%char
  /\ char_eqb (lower_char c) "-"%char = char_eqb c "-"%char
  /\ char_eqb (upper_char c) "/"%char = char_eqb c "/"%char
  /\ char_eqb (lower_char c) "/"%char = char_eqb c "/"%char.
Proof. destruct c as [[] [] [] [] [] [] [] []]; repeat split. Qed.

Lemma has_char_lower (s : string) :
  has_char "-"%char (lower s) = has_char "-"%char s
  /\ has_char "/"%char (lower s) = has_char "/"%char s.
Proof.
  induction s as [| c r [IH1 IH2]]; simpl; [auto |].
  destruct (case_keeps_separator c) as (_ & E1 & _ & E2).
  now rewrite E1, E2, IH1, IH2.
Qed.

Lemma has_char_capitalize (s : string) :
  has_char "-"%char (capitalize s) = has_char "-"%char s
  /\ has_char "/"%char (capitalize s) = has_char "/"%char s.
Proof.
  destruct s as [| c r]; simpl; [auto |].
  destruct (case_keeps_separator c) as (E1 & _ & E2 & _).
  destruct (has_char_lower r) as [L1 L2].
  now rewrite E1, E2, L1, L2.
Qed.

Lemma has_char_app (x : ascii) (a b : string) :
  has_char x (a ++ b) = has_char x a || has_char x b.
Proof.
  induction a as [| c r IH]; simpl; [reflexivity |].
  now rewrite IH, orb_assoc.
Qed.

Lemma split_head_no_sep (sep : ascii) (s : string) :
  has_char sep (split_head sep s) = false.
Proof.
  induction s as [| c r IH]; simpl; [reflexivity |].
  destruct (char_eqb c sep) eqn:E; simpl; [reflexivity |].
  now rewrite E, IH.
Qed.

Lemma split_head_keeps_absent (sep x : ascii) (s : string) :
  has_char x s = false -> has_char x (split_head sep s) = false.
Proof.
  induction s as [| c r IH]; simpl; [reflexivity |].
  intros H. apply orb_false_iff in H as [Hc Hr].
  destruct (char_eqb c sep); simpl; [reflexivity |].
  now rewrite Hc, IH.
Qed.

Lemma split_head_whole (sep : ascii) (s : string) :
  has_char sep s = false -> split_head sep s = s.
Proof.
  induction s as [| c r IH]; simpl; [reflexivity |].
  intros H. apply orb_false_iff in H as [Hc Hr].
  now rewrite Hc, IH.
Qed.

Lemma split_head_app (sep : ascii) (a b : string) :
  has_char sep a = false -> split_head sep (a ++ String sep b) = a.
Proof.
  induction a as [| c r IH]; simpl.
  - intros _. unfold char_eqb. now rewrite Ascii.eqb_refl.
  - intros H. apply orb_false_iff in H as [Hc Hr].
    now rewrite Hc, IH.
Qed.

Lemma basename_no_slash (p : string) :
  has_char "/"%char (basename p) = false.
Proof.
  induction p as [| c r IH]; simpl; [reflexivity |].
  destruct (has_char "/"%char r) eqn:Hr; [exact IH |].
  destruct (char_eqb c "/"%char) eqn:Hc; [exact Hr |].
  simpl. now rewrite Hc, Hr.
Qed.

Lemma basename_whole (p : string) :
  has_char "/"%char p = false -> basename p = p.
Proof.
  destruct p as [| c r]; simpl; [reflexivity |].
  intros H. apply orb_false_iff in H as [Hc Hr].
  now rewrite Hr, Hc.
Qed.

(** X1.  The service name of a file whose name has no directory part is the
    capitalized text before its first dash; a name without a dash gives the
    whole capitalized name, extension included. *)
Theorem service_name_prefix :
  (forall a b : string,
      no_char "-"%char a -> no_char "/"%char a -> no_char "/"%char b ->
      service_name (a ++ String "-"%char b) = capitalize a)
  /\ (forall name : string,
         no_char "-"%char name -> no_char "/"%char name ->
         service_name name = capitalize name).
Proof.
  unfold no_char, service_name. split.
  - intros a b Hd Ha Hb.
    rewrite basename_whole.
    + now rewrite split_head_app.
    + rewrite has_char_app. simpl. now rewrite Ha, Hb.
  - intros name Hd Hs. now rewrite basename_whole, split_head_whole.
Qed.

Lemma service_name_prefix_witness :
  service_name "guardduty-export-2024.json" = "Guardduty"
  /\ service_name "detective.json" = "Detective.json".
Proof.
  split.
  - exact (proj1 service_name_prefix "guardduty" "export-2024.json"
             eq_refl eq_refl eq_refl).
  - exact (proj2 service_name_prefix "detective.json" eq_refl eq_refl).
Defined.

(** X2.  Whatever the file name, the service name has no dash and no slash;
    and for an ASCII file name (the texts on which the embedding's
    [capitalize] is Python's) capitalizing it again changes nothing. *)
Theorem service_name_shape (name : string) :
  no_char "-"%char (service_name name)
  /\ no_char "/"%char (service_name name)
  /\ (is_ascii name = true -> capitalize (service_name name) = service_name name).
Proof.
  unfold no_char, service_name.
  destruct (has_char_capitalize (split_head "-"%char (basename name))) as [E1 E2].
  split; [| split].
  - rewrite E1. apply split_head_no_sep.
  - rewrite E2. apply split_head_keeps_absent, basename_no_slash.
  - intros _. apply capitalize_idem.
Qed.

Lemma service_name_shape_witness :
  is_ascii "guardduty-export.json" = true
  /\ capitalize (service_name "guardduty-export.json")
     = service_name "guardduty-export.json".
Proof.
  split; [reflexivity |].
  exact (proj2 (proj2 (service_name_shape "guardduty-export.json")) eq_refl).
Defined.

Lemma prefix_spec (a s : string) :
  prefix a s = true <-> exists b, s = (a ++ b)%string.
Proof.
  revert s. induction a as [| c a IH]; intros s.
  - destruct s; simpl; (split; [intros _; eexists; reflexivity | reflexivity]).
  - destruct s as [| c' s]; simpl.
    + split; [discriminate | intros [b H]; discriminate H].
    + destruct (ascii_dec c c') as [<- | N].
      * rewrite IH. split; intros [b H]; exists b; [now rewrite H | now injection H].
      * split; [discriminate | intros [b H]; injection H as E _; now contradiction N].
Qed.

(** [sub in s] decides whether [sub] occurs in [s]. *)
Lemma contains_spec (sub s : string) : contains sub s = true <-> occurs sub s.
Proof.
  unfold occurs. split.
  - induction s as [| c r IH]; cbn [contains].
    + destruct (prefix sub EmptyString) eqn:P; [| discriminate].
      intros _. apply prefix_spec in P as [b E]. exists EmptyString, b. exact E.
    + destruct (prefix sub (String c r)) eqn:P.
      * intros _. apply prefix_spec in P as [b E]. exists EmptyString, b. exact E.
      * intros H. destruct (IH H) as (a & b & E).
        exists (String c a), b. cbn [append]. now rewrite E.
  - intros (a & b & ->). induction a as [| c a IH]; cbn [append].
    + assert (P : prefix sub (sub ++ b) = true) by (apply prefix_spec; eauto).
      destruct (sub ++ b)%string; cbn [contains]; now rewrite P.
    + cbn [contains].
      destruct (prefix sub (String c (a ++ sub ++ b))); [reflexivity | exact IH].
Qed.

Lemma contains_false (sub s : string) : contains sub s = false <-> ~ occurs sub s.
Proof.
  rewrite <- contains_spec. destruct (contains sub s); split; congruence.
Qed.

(** X3.  The team of a service is decided by which of the five keywords
    occur in its lower-cased name, in this order of precedence: guardduty or
    securityhub, then inspector or accessanalyzer, then detective. *)
Theorem team_map_keywords (s : string) :
  let capsa := occurs "guardduty" (lower s) \/ occurs "securityhub" (lower s) in
  let bcg := occurs "inspector" (lower s) \/ occurs "accessanalyzer" (lower s) in
  let both := occurs "detective" (lower s) in
  (team_map (JStr s) = JStr "CAPSA Team" <-> capsa)
  /\ (team_map (JStr s) = JStr "BCG Team" <-> ~ capsa /\ bcg)
  /\ (team_map (JStr s) = JStr "Both BCG & CAPSA Team" <-> ~ capsa /\ ~ bcg /\ both)
  /\ (team_map (JStr s) = JStr "Others" <-> ~ capsa /\ ~ bcg /\ ~ both).
Proof.
  cbv zeta. unfold team_map. cbn [py_str].
  rewrite <- !contains_spec.
  destruct (contains "guardduty" (lower s)), (contains "securityhub" (lower s)),
    (contains "inspector" (lower s)), (contains "accessanalyzer" (lower s)),
    (contains "detective" (lower s)); cbn [orb];
    repeat split; try discriminate; try tauto; intuition congruence.
Qed.



End ServiceNames.

(* ===================================================================== *)
(** ** Column assignment and the derived cells of a row *)
(* ===================================================================== *)

Section Assignment.

Lemma lookup_set_cell (c c' : string) (v : json) (r : row) :
  lookup c' (set_cell c v r) = if String.eqb c' c then Some v else lookup c' r.
Proof.
  induction r as [| [k x] rest IH]; cbn [set_cell lookup].
  - reflexivity.
  - destruct (String.eqb_spec c k) as [-> | Nck]; cbn [lookup].
    + now destruct (String.eqb c' k).
    + rewrite IH. destruct (String.eqb_spec c' k) as [-> | N]; [| reflexivity].
      destruct (String.eqb_spec k c) as [E | _]; [now contradiction Nck | reflexivity].
Qed.

Lemma cell_set_cell (c c' : string) (v : json) (r : row) :
  cell (set_cell c v r) c' = if String.eqb c' c then v else cell r c'.
Proof. unfold cell. rewrite lookup_set_cell. now destruct (String.eqb c' c). Qed.

Lemma keys_set_cell (c : string) (v : json) (r : row) :
  map fst (set_cell c v r) = add_key (map fst r) c.
Proof.
  unfold add_key, has_key.
  induction r as [| [k x] rest IH]; cbn [set_cell map fst existsb].
  - reflexivity.
  - destruct (String.eqb c k); cbn [map fst orb]; [reflexivity |].
    rewrite IH. now destruct (existsb (String.eqb c) (map fst rest)).
Qed.

(** Lines 76-118 on any row whose severity cell is the text [s]. *)
Lemma derive_row_text (r : row) (s : string) :
  cell r "Severity" = JStr s ->
  exists timeline cost,
    fix_timeline (JStr s) = Ok (JStr timeline)
    /\ fix_cost (JStr s) = Ok (JStr cost)
    /\ derive_row r
       = Ok (set_cell "Cost to Fix (Est.)" (JStr cost)
               (set_cell "Fix Timeline" (JStr timeline)
                  (set_cell "Team" (team_map (cell r "Service"))
                     (set_cell "Severity" (JStr (upper s)) r)))).
Proof.
  intros Hs.
  destruct (fix_timeline_range s) as (timeline & Ef & _).
  destruct (fix_cost_range s) as (cost & Ec & _).
  exists timeline, cost. split; [exact Ef |]. split; [exact Ec |].
  assert (Ef' : fix_timeline (JStr (upper s)) = Ok (JStr timeline)).
  { rewrite <- Ef. unfold fix_timeline. cbn [py_lower bind]. now rewrite lower_of_upper. }
  assert (Ec' : fix_cost (JStr (upper s)) = Ok (JStr cost)).
  { rewrite <- Ec. unfold fix_cost. cbn [py_lower bind]. now rewrite lower_of_upper. }
  unfold derive_row. cbv zeta.
  rewrite !cell_set_cell. cbn [String.eqb Ascii.eqb Bool.eqb].
  rewrite Hs. cbn [str_upper]. rewrite Ef'. cbn [bind].
  rewrite !cell_set_cell. cbn [String.eqb Ascii.eqb Bool.eqb].
  now rewrite Ec'.
Qed.

Lemma derive_row_not_text (r : row) :
  (forall s, cell r "Severity" <> JStr s) -> derive_row r = Raise AttributeError.
Proof.
  intros Hs. unfold derive_row. cbv zeta.
  rewrite !cell_set_cell. cbn [String.eqb Ascii.eqb Bool.eqb].
  destruct (cell r "Severity") as [| b | z | x t | s | l | d] eqn:E; try reflexivity.
  now contradiction (Hs s).
Qed.

(** X5.  Lines 76-118 on one row, whatever its columns.  When the severity
    cell is a text, the row gets the team of its service and the timeline
    and cost of its new severity cell; every other cell is kept, the columns
    it had keep their place and the missing derived columns are added after
    them.  For an ASCII severity text [s] (the texts on which the
    embedding's case mappings are Python's) the new severity is [upper s]
    and the timeline and cost are those of [s] itself.  When the severity
    cell is not a text the run raises [AttributeError]. *)
Theorem derive_row_cells (r : row) :
  (forall s, cell r "Severity" = JStr s ->
     exists r',
       derive_row r = Ok r'
       /\ cell r' "Team" = team_map (cell r "Service")
       /\ fix_timeline (cell r' "Severity") = Ok (cell r' "Fix Timeline")
       /\ fix_cost (cell r' "Severity") = Ok (cell r' "Cost to Fix (Est.)")
       /\ (forall c, ~ In c written_columns -> cell r' c = cell r c)
       /\ map fst r' = fold_left add_key written_columns (map fst r)
       /\ (is_ascii s = true ->
           cell r' "Severity" = JStr (upper s)
           /\ fix_timeline (JStr s) = Ok (cell r' "Fix Timeline")
           /\ fix_cost (JStr s) = Ok (cell r' "Cost to Fix (Est.)")))
  /\ ((forall s, cell r "Severity" <> JStr s) -> derive_row r = Raise AttributeError).
Proof.
  split; [| apply derive_row_not_text].
  intros s Hs.
  destruct (derive_row_text r s Hs) as (timeline & cost & Ef & Ec & E).
  assert (Ef' : fix_timeline (JStr (upper s)) = Ok (JStr timeline)).
  { rewrite <- Ef. unfold fix_timeline. cbn [py_lower bind]. now rewrite lower_of_upper. }
  assert (Ec' : fix_cost (JStr (upper s)) = Ok (JStr cost)).
  { rewrite <- Ec. unfold fix_cost. cbn [py_lower bind]. now rewrite lower_of_upper. }
  eexists. split; [exact E |].
  rewrite !cell_set_cell. cbn [String.eqb Ascii.eqb Bool.eqb].
  split; [reflexivity |].
  split; [exact Ef' |]. split; [exact Ec' |]. split; [| split].
  - intros c Hc. rewrite !cell_set_cell.
    destruct (String.eqb_spec c "Cost to Fix (Est.)") as [-> | _];
      [exfalso; apply Hc; simpl; tauto |].
    destruct (String.eqb_spec c "Fix Timeline") as [-> | _];
      [exfalso; apply Hc; simpl; tauto |].
    destruct (String.eqb_spec c "Team") as [-> | _];
      [exfalso; apply Hc; simpl; tauto |].
    destruct (String.eqb_spec c "Severity") as [-> | _];
      [exfalso; apply Hc; simpl; tauto | reflexivity].
  - rewrite !keys_set_cell. reflexivity.
  - intros _. split; [reflexivity |]. split; [exact Ef | exact Ec].
Qed.

Lemma derive_row_cells_witness :
  exists r',
    derive_row [("Severity", JStr "high"); ("Note", JInt 7)] = Ok r'
    /\ is_ascii "high" = true
    /\ cell r' "Severity" = JStr "HIGH"
    /\ cell r' "Note" = JInt 7.
Proof.
  destruct (proj1 (derive_row_cells [("Severity", JStr "high"); ("Note", JInt 7)])
              "high" eq_refl) as (r' & E & _ & _ & _ & Hk & _ & Ha).
  exists r'. split; [exact E |]. split; [reflexivity |].
  split; [exact (proj1 (Ha eq_refl)) |].
  apply (Hk "Note"). simpl. intros [H | [H | [H | [H | []]]]]; discriminate H.
Defined.

(** X6.  The timeline table and the cost table recognize the same
    severities: a text gets the fallback timeline exactly when it gets the
    fallback cost, and each timeline goes with one cost. *)
Theorem fix_timeline_cost_agree (s : string) :
  (fix_timeline (JStr s) = Ok (JStr "5 Days") <-> fix_cost (JStr s) = Ok (JStr "$250/hour"))
  /\ (fix_timeline (JStr s) = Ok (JStr "1 Week") <-> fix_cost (JStr s) = Ok (JStr "$150/hour"))
  /\ (fix_timeline (JStr s) = Ok (JStr "2 Weeks") <-> fix_cost (JStr s) = Ok (JStr "$75/hour"))
  /\ (fix_timeline (JStr s) = Ok (JStr "3 Weeks") <-> fix_cost (JStr s) = Ok (JStr "$25/hour"))
  /\ (fix_timeline (JStr s) = Ok (JStr "N/A") <-> fix_cost (JStr s) = Ok (JStr "Minimal"))
  /\ (fix_timeline (JStr s) = Ok (JStr "N/A")
      <-> ~ In (lower s) ["critical"; "high"; "medium"; "low"]).
Proof.
  unfold fix_timeline, fix_cost. cbn [py_lower bind].
  destruct (String.eqb_spec (lower s) "critical") as [E1 | N1].
  { rewrite E1. cbn. repeat split; try discriminate; try tauto; intros H; exfalso; tauto. }
  destruct (String.eqb_spec (lower s) "high") as [E2 | N2].
  { rewrite E2. cbn. repeat split; try discriminate; try tauto; intros H; exfalso; tauto. }
  destruct (String.eqb_spec (lower s) "medium") as [E3 | N3].
  { rewrite E3. cbn. repeat split; try discriminate; try tauto; intros H; exfalso; tauto. }
  destruct (String.eqb_spec (lower s) "low") as [E4 | N4].
  { rewrite E4. cbn. repeat split; try discriminate; try tauto; intros H; exfalso; tauto. }
  repeat split; try discriminate; try tauto.
  simpl. intros _ [H | [H | [H | [H | []]]]]; congruence.
Qed.

End Assignment.

(* ===================================================================== *)
(** ** The fields of a finding *)
(* ===================================================================== *)

Section Findings.

Lemma workflow_ok (d : list (string * json)) :
  finding_ok (JDict d) = true ->
  match lookup "Workflow" d with Some v => v | None => JDict [] end
  = JDict (workflow_of d).
Proof.
  unfold finding_ok, workflow_of.
  destruct (lookup "Workflow" d) as [w |]; [| reflexivity].
  destruct w; intros H; try discriminate H; reflexivity.
Qed.

(** The record of a finding, field by field. *)
Lemma finding_record_explicit (service : string) (d : list (string * json)) :
  finding_ok (JDict d) = true ->
  exists label,
    label_of (JDict d) = Ok label
    /\ finding_record service (JDict d)
       = Ok (make_record service
               (first_present ["AwsAccountId"; "resourceOwnerAccount"] d (JStr EmptyString))
               (first_present ["Region"] d (JStr "us-east-2"))
               (py_str (first_present ["Resource"; "resource"] d (JStr EmptyString)))
               label
               (first_present ["Title"; "id"] d (JStr ("Finding from " ++ service)%string))
               (first_present ["Description"; "findingDetails"] d (JStr EmptyString))
               (first_present ["Status"] (workflow_of d)
                  (first_present ["status"] d (JStr "ACTIVE")))
               (first_present ["CreatedAt"] d (JStr EmptyString))).
Proof.
  intros Hok. unfold finding_record, label_of. cbn [py_get bind].
  match goal with
  | |- context [sev_label ?x] => destruct (sev_label_total x) as [label E]
  end.
  exists label. split; [exact E |].
  rewrite E. cbn [bind]. rewrite (workflow_ok d Hok).
  cbn [isinstance_dict py_get bind first_present].
  unfold make_record.
  destruct (lookup "AwsAccountId" d), (lookup "Region" d), (lookup "Resource" d),
    (lookup "Title" d), (lookup "Description" d), (lookup "Status" (workflow_of d)),
    (lookup "CreatedAt" d); reflexivity.
Qed.

(** X7.  The fields of the record of a finding.  Each field is the value
    under its first key when the finding has that key, whatever the value
    (null included); else the value under its second key; else the default.
    The status is read from the [Workflow] mapping first and from the flat
    [status] key when that mapping is absent or has no [Status]; the
    resource is always turned into a text. *)
Theorem finding_fields_precedence (service : string) (d : list (string * json)) (r : row) :
  finding_record service (JDict d) = Ok r ->
  cell r "Service" = JStr service
  /\ cell r "Account"
     = first_present ["AwsAccountId"; "resourceOwnerAccount"] d (JStr EmptyString)
  /\ cell r "Region" = first_present ["Region"] d (JStr "us-east-2")
  /\ cell r "Resource"
     = JStr (py_str (first_present ["Resource"; "resource"] d (JStr EmptyString)))
  /\ label_of (JDict d) = Ok (cell r "Severity")
  /\ cell r "Title"
     = first_present ["Title"; "id"] d (JStr ("Finding from " ++ service)%string)
  /\ cell r "Description"
     = first_present ["Description"; "findingDetails"] d (JStr EmptyString)
  /\ cell r "Status"
     = first_present ["Status"] (workflow_of d) (first_present ["status"] d (JStr "ACTIVE"))
  /\ cell r "CreatedAt" = first_present ["CreatedAt"] d (JStr EmptyString).
Proof.
  intros H.
  assert (Hok : finding_ok (JDict d) = true)
    by (apply (finding_record_Ok_iff service); eauto).
  destruct (finding_record_explicit service d Hok) as (label & El & E).
  rewrite E in H. injection H as <-.
  unfold make_record. cbn [cell lookup String.eqb Ascii.eqb Bool.eqb].
  repeat split; try reflexivity. exact El.
Qed.

Lemma finding_fields_precedence_witness :
  exists r,
    finding_record "Inspector"
      (JDict [("AwsAccountId", JNull); ("resourceOwnerAccount", JStr "111");
              ("id", JStr "f-1"); ("Workflow", JDict []); ("status", JStr "CLOSED")])
    = Ok r
    /\ cell r "Account" = JNull
    /\ cell r "Title" = JStr "f-1"
    /\ cell r "Status" = JStr "CLOSED".
Proof.
  eexists. split; [reflexivity |].
  pose proof (finding_fields_precedence "Inspector"
                [("AwsAccountId", JNull); ("resourceOwnerAccount", JStr "111");
                 ("id", JStr "f-1"); ("Workflow", JDict []); ("status", JStr "CLOSED")]
                _ eq_refl) as (_ & Ha & _ & _ & _ & Ht & _ & Hs & _).
  split; [exact Ha |]. split; [exact Ht | exact Hs].
Defined.


(** X8.  A finding whose severity is an ASCII text [s] (the texts on which
    the embedding's case mappings are Python's), given directly or as the
    label of a mapping, gets the table severity [upper s] and the timeline
    and cost of [s]: the letter case of the severity in the document does
    not matter. *)
Theorem text_severity_row (service : string) (d : list (string * json)) (s : string) :
  finding_ok (JDict d) = true -> severity_text d s -> is_ascii s = true ->
  exists r r',
    finding_record service (JDict d) = Ok r
    /\ derive_row r = Ok r'
    /\ cell r' "Severity" = JStr (upper s)
    /\ fix_timeline (JStr s) = Ok (cell r' "Fix Timeline")
    /\ fix_cost (JStr s) = Ok (cell r' "Cost to Fix (Est.)").
Proof.
  intros Hok Hs _.
  destruct (finding_record_explicit service d Hok) as (label & El & E).
  assert (L : exists s', label = JStr s' /\ upper s' = upper s /\ lower s' = lower s).
  { unfold label_of in El. cbn [py_get bind] in El.
    destruct Hs as [Hs | (m & Hs & Hl & Hne)]; rewrite Hs in El.
    - injection El as <-. exists (capitalize s). cbn [py_str].
      split; [reflexivity |]. split; [apply upper_capitalize | apply lower_capitalize].
    - unfold sev_label in El. cbn [isinstance_dict py_get bind] in El.
      rewrite Hl in El. cbn [truthy] in El.
      destruct (String.eqb_spec s EmptyString) as [-> | _]; [now contradiction Hne |].
      cbn [negb] in El. injection El as <-. exists s. auto. }
  destruct L as (s' & -> & Hu & Hl).
  match type of E with
  | _ = Ok ?rec =>
      assert (Hc : cell rec "Severity" = JStr s') by reflexivity;
      destruct (derive_row_text rec s' Hc) as (timeline & cost & Ef & Ec & Ed)
  end.
  do 2 eexists. split; [exact E |]. split; [exact Ed |].
  rewrite !cell_set_cell. cbn [String.eqb Ascii.eqb Bool.eqb].
  split; [now rewrite Hu |].
  split.
  - rewrite <- Ef. unfold fix_timeline. cbn [py_lower bind]. now rewrite Hl.
  - rewrite <- Ec. unfold fix_cost. cbn [py_lower bind]. now rewrite Hl.
Qed.

Lemma text_severity_row_witness :
  exists r r',
    finding_record "Guardduty" (JDict [("Severity", JDict [("Label", JStr "hIgH")])]) = Ok r
    /\ derive_row r = Ok r'
    /\ is_ascii "hIgH" = true
    /\ cell r' "Severity" = JStr "HIGH"
    /\ fix_cost (JStr "hIgH") = Ok (cell r' "Cost to Fix (Est.)").
Proof.
  assert (Hs : severity_text [("Severity", JDict [("Label", JStr "hIgH")])] "hIgH").
  { right. exists [("Label", JStr "hIgH")].
    split; [reflexivity |]. split; [reflexivity | discriminate]. }
  destruct (text_severity_row "Guardduty" [("Severity", JDict [("Label", JStr "hIgH")])]
              "hIgH" eq_refl Hs eq_refl)
    as (r & r' & E & Ed & Hv & _ & Hc).
  exists r, r'. split; [exact E |]. split; [exact Ed |].
  split; [reflexivity |]. split; [exact Hv | exact Hc].
Defined.

(** X9.  A finding without a usable severity (no [Severity] key, or a
    mapping with neither a usable [Label] nor a usable [Normalized]) is a
    MEDIUM row with timeline "2 Weeks" and cost "$75/hour". *)
Theorem missing_severity_row (service : string) (d : list (string * json)) :
  finding_ok (JDict d) = true -> severity_missing d ->
  exists r r',
    finding_record service (JDict d) = Ok r
    /\ derive_row r = Ok r'
    /\ cell r' "Severity" = JStr "MEDIUM"
    /\ cell r' "Fix Timeline" = JStr "2 Weeks"
    /\ cell r' "Cost to Fix (Est.)" = JStr "$75/hour".
Proof.
  intros Hok Hs.
  destruct (finding_record_explicit service d Hok) as (label & El & E).
  assert (L : label = JStr "Medium").
  { unfold label_of in El. cbn [py_get bind] in El.
    destruct Hs as [Hs | (m & Hs & Hl & Hn)]; rewrite Hs in El.
    - now injection El as <-.
    - unfold sev_label in El. cbn [isinstance_dict py_get bind] in El.
      unfold falsy_at in Hl, Hn.
      destruct (lookup "Label" m) as [v |];
        [rewrite Hl in El | cbn [truthy] in El];
        (destruct (lookup "Normalized" m) as [w |];
         [rewrite Hn in El | cbn [truthy] in El]);
        now injection El as <-. }
  subst label. do 2 eexists. split; [exact E |].
  split; [reflexivity |]. repeat split.
Qed.

Lemma missing_severity_row_witness :
  exists r r',
    finding_record "Guardduty" (JDict [("Severity", JDict [("Label", JStr EmptyString)])])
    = Ok r
    /\ derive_row r = Ok r'
    /\ cell r' "Severity" = JStr "MEDIUM".
Proof.
  destruct (missing_severity_row "Guardduty"
              [("Severity", JDict [("Label", JStr EmptyString)])] eq_refl)
    as (r & r' & E & Ed & Hs & _).
  { right. exists [("Label", JStr EmptyString)].
    split; [reflexivity |]. split; reflexivity. }
  exists r, r'. auto.
Defined.

(** X10.  A numeric severity of any kind (int, float, bool, the infinities
    and nan included) is normalized to one of Critical, High, Medium, Low,
    never to the number itself; nan and minus infinity give Low and plus
    infinity gives Critical. *)
Theorem numeric_severity_labels :
  (forall sev, isinstance_number sev = true ->
     exists s, sev_label sev = Ok (JStr s)
               /\ In s ["Critical"; "High"; "Medium"; "Low"]
               /\ recognized (JStr (upper s)))
  /\ (forall text, sev_label (JFloat Fnan text) = Ok (JStr "Low"))
  /\ (forall text, sev_label (JFloat (Finf true) text) = Ok (JStr "Low"))
  /\ (forall text, sev_label (JFloat (Finf false) text) = Ok (JStr "Critical")).
Proof.
  split; [| repeat split].
  intros sev Hn. unfold sev_label, recognized.
  destruct sev as [| b | z | [| n | x] t | s | l | d]; try discriminate Hn;
    cbn [isinstance_dict isinstance_number py_ge bind];
    repeat match goal with
           | |- context [if ?c then _ else _] => destruct c; cbn [bind]
           end;
    eexists; (split; [reflexivity |]); simpl; tauto.
Qed.

Lemma numeric_severity_labels_witness :
  exists s, sev_label (JBool true) = Ok (JStr s)
            /\ In s ["Critical"; "High"; "Medium"; "Low"].
Proof.
  destruct (proj1 numeric_severity_labels (JBool true) eq_refl) as (s & E & Hin & _).
  exists s. auto.
Defined.

(** X11.  The [Findings] key shadows the [findings] key: when a document
    has [Findings], even empty or null, the value under [findings] is never
    read, so an empty [Findings] beside a populated [findings] gives the
    placeholder record alone. *)
Theorem Findings_shadows_findings (service : string) (d : list (string * json))
  (v : json) :
  lookup "Findings" d = Some v ->
  findings_of (JDict d) = Ok v
  /\ (truthy v = false -> extract service (JDict d) = Ok [placeholder_record service])
  /\ (forall l, v = JList l -> l <> [] ->
        extract service (JDict d) = mapM (finding_record service) l).
Proof.
  intros Hv.
  assert (E : findings_of (JDict d) = Ok v).
  { rewrite findings_of_dict. unfold findings_entry. now rewrite Hv. }
  split; [exact E |]. unfold extract. rewrite E. cbn [bind]. split.
  - intros ->. reflexivity.
  - intros l -> Hl. destruct l as [| x l]; [now contradiction Hl | reflexivity].
Qed.

Lemma Findings_shadows_findings_witness :
  extract "Guardduty"
    (JDict [("findings", JList [JDict []]); ("Findings", JList [])])
  = Ok [placeholder_record "Guardduty"].
Proof.
  exact (proj1 (proj2 (Findings_shadows_findings "Guardduty"
                         [("findings", JList [JDict []]); ("Findings", JList [])]
                         (JList []) eq_refl)) eq_refl).
Defined.

End Findings.

(* ===================================================================== *)
(** ** The run as a whole *)
(* ===================================================================== *)

Section Run.

Lemma bind_ret {A : Type} (c : result A) : bind c (fun a => Ok a) = c.
Proof. now destruct c. Qed.

Lemma mapM_length {A B : Type} (f : A -> result B) (l : list A) (bs : list B) :
  mapM f l = Ok bs -> length bs = length l.
Proof.
  rewrite mapM_Ok_Forall2. induction 1; simpl; congruence.
Qed.

Lemma mapM_all_Ok {A B : Type} (f : A -> result B) (l : list A) :
  (forall a, In a l -> exists b, f a = Ok b) -> exists bs, mapM f l = Ok bs.
Proof.
  induction l as [| a l IH]; intros H; cbn [mapM]; [eauto |].
  destruct (H a (or_introl eq_refl)) as [b ->].
  destruct IH as [bs ->]; [intros x Hx; apply H; now right | eauto].
Qed.

Lemma mapM_Raise_inv {A B : Type} (f : A -> result B) (l : list A) (e : exn) :
  mapM f l = Raise e -> exists a, In a l /\ f a = Raise e.
Proof.
  induction l as [| a l IH]; cbn [mapM]; [discriminate |].
  destruct (f a) as [b | e'] eqn:Ea.
  - destruct (mapM f l) as [bs | e'']; [discriminate |].
    intros [= <-]. destruct (IH eq_refl) as (x & Hx & Ex).
    exists x. split; [now right | exact Ex].
  - intros [= <-]. exists a. split; [now left | exact Ea].
Qed.

Lemma mapM_split {A B C : Type} (f : A -> result B) (g : B -> result C)
  (h : A -> result C) (l : list A) (l2 : list C) :
  (forall a c, h a = Ok c -> exists b, f a = Ok b /\ g b = Ok c) ->
  mapM h l = Ok l2 -> exists l1, mapM f l = Ok l1 /\ mapM g l1 = Ok l2.
Proof.
  intros Hh. revert l2. induction l as [| a l IH]; intros l2 H.
  - injection H as <-. exists []. auto.
  - apply mapM_cons_Ok in H as (c & l2' & Hc & Hl & ->).
    destruct (Hh a c Hc) as (b & Hb & Hg).
    destruct (IH l2' Hl) as (l1 & H1 & H2).
    exists (b :: l1). cbn [mapM]. now rewrite Hb, H1, Hg, H2.
Qed.

(** X12.  Loading is file by file: the records of a list of files are the
    records of its first part followed by those of its second part, and an
    exception of the first part comes first. *)
Theorem load_records_app (first second : list file) :
  load_records (first ++ second)
  = (a <- load_records first ;; b <- load_records second ;; Ok (a ++ b))
  /\ (forall a b, load_records first = Ok a -> load_records second = Ok b ->
                  load_records (first ++ second) = Ok (a ++ b))
  /\ (forall e, load_records first = Raise e ->
                load_records (first ++ second) = Raise e).
Proof.
  assert (E : load_records (first ++ second)
              = (a <- load_records first ;; b <- load_records second ;; Ok (a ++ b))).
  { induction first as [| f rest IH]; cbn [app load_records bind].
    - symmetry. apply bind_ret.
    - rewrite IH.
      destruct (json_load f) as [data | e]; cbn [bind]; [| reflexivity].
      destruct (extract (service_name (file_name f)) data) as [added | e];
        cbn [bind]; [| reflexivity].
      destruct (load_records rest) as [later | e]; cbn [bind]; [| reflexivity].
      destruct (load_records second) as [b | e]; cbn [bind]; [| reflexivity].
      now rewrite app_assoc. }
  split; [exact E |]. split.
  - intros a b Ha Hb. now rewrite E, Ha, Hb.
  - intros e He. now rewrite E, He.
Qed.

Lemma load_records_app_witness :
  load_records ([guardduty_file] ++ [inspector_file])
  = Ok ([make_record "Guardduty" (JStr EmptyString) (JStr "us-east-2") EmptyString
           (JStr "Critical") (JStr "Finding from Guardduty") (JStr EmptyString)
           (JStr "ACTIVE") (JStr EmptyString)]
        ++ [placeholder_record "Inspector"]).
Proof.
  exact (proj1 (proj2 (load_records_app [guardduty_file] [inspector_file]))
           _ _ eq_refl eq_refl).
Defined.

Lemma extract_length (service : string) (data : json) (records : list row) :
  extract service data = Ok records -> length records = finding_count data.
Proof.
  intros H.
  destruct data as [| b | z | x t | s | l | d]; try discriminate H.
  unfold extract in H. rewrite findings_of_dict in H. cbn [bind] in H.
  unfold finding_count.
  destruct (findings_entry (JDict d)) as [v |]; [| now injection H as <-].
  destruct (truthy v) eqn:T.
  - destruct v as [| b | z | x t | s | l | d']; try discriminate H; cbn [py_iter bind] in H.
    + exfalso. apply (mapM_str_elements service (chars s)) with records; [| exact H].
      destruct s; [discriminate T | discriminate].
    + apply mapM_length in H. destruct l as [| x l]; [discriminate T | exact H].
    + exfalso. rewrite <- (map_map fst JStr) in H.
      apply (mapM_str_elements service (map fst d')) with records; [| exact H].
      destruct d'; [discriminate T | discriminate].
  - injection H as <-.
    destruct v as [| b | z | x t | s | l | d']; try reflexivity.
    destruct l; [reflexivity | discriminate T].
Qed.

Lemma load_records_length (files : list file) (records : list row) :
  load_records files = Ok records -> length records = expected_rows files.
Proof.
  revert records. induction files as [| f rest IH]; intros records H.
  - now injection H as <-.
  - apply load_records_cons_Ok in H as (data & added & later & Hc & Ha & Hl & ->).
    unfold expected_rows. cbn [map]. rewrite Hc, length_app.
    rewrite (extract_length _ _ _ Ha). cbn [list_sum fold_right].
    f_equal. now apply IH.
Qed.

(** X13.  The table has one row per finding and one row per document
    without findings: its length is the sum over the files. *)
Theorem table_row_count (files : list file) (table : DataFrame) :
  df files = Ok table ->
  len table = expected_rows files /\ (0 < len table)%nat.
Proof.
  intros H.
  destruct (df_rows files table H) as (records & Hl & Hn & _ & Hm).
  apply mapM_length in Hm. unfold len. rewrite Hm.
  split; [now apply load_records_length |].
  destruct records; [now contradiction Hn | simpl; lia].
Qed.

Lemma table_row_count_witness :
  exists table,
    df [guardduty_file; inspector_file] = Ok table /\ len table = 2%nat.
Proof.
  assert (H : exists table, df [guardduty_file; inspector_file] = Ok table)
    by (eexists; vm_compute; reflexivity).
  destruct H as [table H].
  exists table. split; [exact H |].
  exact (proj1 (table_row_count [guardduty_file; inspector_file] table H)).
Defined.

End Run.

(* ===================================================================== *)
(** ** When the run succeeds and how it fails *)
(* ===================================================================== *)

Section Outcome.

Lemma finding_record_raise (service : string) (fnd : json) (e : exn) :
  finding_record service fnd = Raise e -> e = AttributeError.
Proof.
  intros H.
  destruct fnd as [| b | z | x t | s | l | d];
    try (cbn in H; now injection H as <-).
  destruct (finding_ok (JDict d)) eqn:Hok.
  - destruct (finding_record_explicit service d Hok) as (label & _ & E). congruence.
  - unfold finding_record in H. cbn [py_get bind] in H.
    match type of H with
    | context [sev_label ?x] => destruct (sev_label_total x) as [label E]
    end.
    rewrite E in H. cbn [bind] in H. unfold finding_ok in Hok.
    destruct (lookup "Workflow" d) as [w |]; [| discriminate Hok].
    destruct w; try discriminate Hok; cbn in H; now injection H as <-.
Qed.

Lemma extract_raise_cases (service : string) (data : json) (e : exn) :
  extract service data = Raise e ->
  e = AttributeError
  \/ (e = TypeError
      /\ exists d v, data = JDict d /\ findings_entry data = Some v
                     /\ truthy v = true /\ isinstance_number v = true).
Proof.
  intros H.
  destruct data as [| b | z | x t | s | l | d];
    try (cbn in H; injection H as <-; now left).
  unfold extract in H. rewrite findings_of_dict in H. cbn [bind] in H.
  destruct (findings_entry (JDict d)) as [v |] eqn:Ev; [| discriminate H].
  destruct (truthy v) eqn:T; [| discriminate H].
  destruct v as [| b | z | x t | s | l | d']; cbn [py_iter bind] in H;
    try (injection H as <-; right; split; [reflexivity |];
         eexists; eexists; repeat split; eauto; fail).
  - apply mapM_Raise_inv in H as (fnd & _ & Hf).
    left. now apply finding_record_raise in Hf.
  - apply mapM_Raise_inv in H as (fnd & _ & Hf).
    left. now apply finding_record_raise in Hf.
  - apply mapM_Raise_inv in H as (fnd & _ & Hf).
    left. now apply finding_record_raise in Hf.
Qed.

Lemma load_records_raise_cases (files : list file) (e : exn) :
  load_records files = Raise e ->
  (e = JSONDecodeError /\ exists f, In f files /\ content f = None)
  \/ exists f data, In f files /\ content f = Some data
                    /\ extract (service_name (file_name f)) data = Raise e.
Proof.
  induction files as [| f rest IH]; cbn [load_records]; [discriminate |].
  unfold json_load. destruct (content f) as [data |] eqn:Hc; cbn [bind].
  - destruct (extract (service_name (file_name f)) data) as [added | e'] eqn:Ha;
      cbn [bind].
    + destruct (load_records rest) as [later | e'']; cbn [bind]; [discriminate |].
      intros [= <-]. destruct (IH eq_refl) as [[-> (g & Hg & Hn)] | (g & dg & Hg & Hcg & Hx)].
      * left. split; [reflexivity |]. exists g. split; [now right | exact Hn].
      * right. exists g, dg. split; [now right | auto].
    + intros [= <-]. right. exists f, data. split; [now left | auto].
  - intros [= <-]. left. split; [reflexivity |]. exists f. split; [now left | exact Hc].
Qed.

Lemma assign_raise (col src : string) (f : json -> result json) (frame : DataFrame)
  (e : exn) :
  assign col src f frame = Raise e -> exists v, f v = Raise e.
Proof.
  unfold assign. intros H.
  destruct (mapM (fun r => v <- f (cell r src) ;; Ok (set_cell col v r)) (rows frame))
    as [l | e'] eqn:E; [discriminate H |].
  injection H as <-. apply mapM_Raise_inv in E as (r & _ & Hr).
  exists (cell r src).
  destruct (f (cell r src)) as [v | e0]; cbn [bind] in Hr;
    [discriminate Hr | now injection Hr as ->].
Qed.

Lemma assign_build (col src : string) (f : json -> result json) (frame : DataFrame)
  (l : list row) :
  mapM (fun r => v <- f (cell r src) ;; Ok (set_cell col v r)) (rows frame) = Ok l ->
  assign col src f frame = Ok (mkDataFrame (add_key (columns frame) col) l).
Proof. unfold assign. now intros ->. Qed.

Lemma derived_raise (v : json) (e : exn) :
  (fix_timeline v = Raise e -> e = AttributeError)
  /\ (fix_cost v = Raise e -> e = AttributeError).
Proof.
  unfold fix_timeline, fix_cost.
  destruct v as [| b | z | x t | s | l | d]; cbn [py_lower bind];
    split; intros H; try (now injection H as <-);
    repeat match type of H with
           | context [if ?c then _ else _] => destruct c
           end; discriminate H.
Qed.

(** The table of loaded records that all go through lines 76-118. *)
Lemma df_build (files : list file) (records l : list row) :
  load_records files = Ok records -> records <> [] ->
  mapM derive_row records = Ok l ->
  df files = Ok (mkDataFrame table_columns l).
Proof.
  intros Hl Hn Hm.
  pose proof (load_records_shape files records Hl) as Hs.
  unfold df. rewrite Hl. cbn [bind].
  rewrite (pd_DataFrame_records records Hs Hn).
  replace (empty (mkDataFrame record_keys records)) with false
    by (destruct records; [now contradiction Hn | reflexivity]).
  destruct (mapM_split
              (fun r =>
                 let r1 := set_cell "Severity" (str_upper (cell r "Severity")) r in
                 let r2 := set_cell "Team" (team_map (cell r1 "Service")) r1 in
                 timeline <- fix_timeline (cell r2 "Severity") ;;
                 Ok (set_cell "Fix Timeline" timeline r2))
              (fun r => v <- fix_cost (cell r "Severity") ;;
                        Ok (set_cell "Cost to Fix (Est.)" v r))
              derive_row records l) as (l3 & M123 & M4); [| exact Hm |].
  { intros a c Hc. unfold derive_row in Hc. cbv zeta in Hc |- *.
    destruct (fix_timeline _) as [t |]; [| discriminate Hc].
    cbn [bind] in Hc |- *. eauto. }
  destruct (mapM_split
              (fun r =>
                 let r1 := set_cell "Severity" (str_upper (cell r "Severity")) r in
                 Ok (set_cell "Team" (team_map (cell r1 "Service")) r1))
              (fun r => v <- fix_timeline (cell r "Severity") ;;
                        Ok (set_cell "Fix Timeline" v r))
              (fun r =>
                 let r1 := set_cell "Severity" (str_upper (cell r "Severity")) r in
                 let r2 := set_cell "Team" (team_map (cell r1 "Service")) r1 in
                 timeline <- fix_timeline (cell r2 "Severity") ;;
                 Ok (set_cell "Fix Timeline" timeline r2))
              records l3) as (l2 & M12 & M3); [| exact M123 |].
  { intros a c Hc. cbv zeta in Hc |- *. eauto. }
  destruct (mapM_split
              (fun r => v <- Ok (str_upper (cell r "Severity")) ;;
                        Ok (set_cell "Severity" v r))
              (fun r => v <- Ok (team_map (cell r "Service")) ;;
                        Ok (set_cell "Team" v r))
              (fun r =>
                 let r1 := set_cell "Severity" (str_upper (cell r "Severity")) r in
                 Ok (set_cell "Team" (team_map (cell r1 "Service")) r1))
              records l2) as (l1 & M1 & M2); [| exact M12 |].
  { intros a c Hc. cbv zeta in Hc. cbn [bind]. eauto. }
  erewrite assign_build; [| exact M1]. cbn [bind].
  erewrite assign_build; [| exact M2]. cbn [bind].
  erewrite assign_build; [| exact M3]. cbn [bind].
  erewrite assign_build; [| exact M4].
  reflexivity.
Qed.

Lemma derive_row_Ok_text (r r' : row) :
  derive_row r = Ok r' -> exists s, cell r "Severity" = JStr s.
Proof.
  intros H.
  destruct (cell r "Severity") as [| b | z | x t | s | l | d] eqn:E; eauto;
    rewrite derive_row_not_text in H; try discriminate H;
    intros s' Hs'; congruence.
Qed.

(** The records of a document have text severities exactly when the labels
    of its findings are texts. *)
Lemma extract_text_labels (service : string) (data : json) (added : list row) :
  extract service data = Ok added ->
  (text_labels data = true <-> forall r, In r added -> exists s, cell r "Severity" = JStr s).
Proof.
  intros H.
  destruct data as [| b | z | x t | s | l | d]; try discriminate H.
  unfold extract in H. rewrite findings_of_dict in H. cbn [bind] in H.
  unfold text_labels.
  destruct (findings_entry (JDict d)) as [v |].
  2: { injection H as <-. split; [| reflexivity].
       intros _ r [<- | []]. eexists. reflexivity. }
  destruct (truthy v) eqn:T.
  2: { injection H as <-. split.
       - intros _ r [<- | []]. eexists. reflexivity.
       - intros _. destruct v as [| b | z | x t | s | l | d']; try reflexivity.
         destruct l; [reflexivity | discriminate T]. }
  destruct v as [| b | z | x t | s | l | d']; try discriminate H; cbn [py_iter bind] in H.
  - exfalso. apply (mapM_str_elements service (chars s)) with added; [| exact H].
    destruct s; [discriminate T | discriminate].
  - rewrite forallb_forall. split.
    + intros Hall r Hr.
      destruct (mapM_Ok_In_inv _ _ _ _ H Hr) as (fnd & Hin & Ef).
      specialize (Hall fnd Hin). unfold text_label in Hall.
      assert (Hok : finding_ok fnd = true)
        by (apply (finding_record_Ok_iff service); eauto).
      destruct fnd as [| b | z | x t | s | l' | fd]; try discriminate Hok.
      destruct (finding_record_explicit service fd Hok) as (label & El & E).
      rewrite El in Hall. rewrite E in Ef. injection Ef as <-.
      destruct label; try discriminate Hall. eexists. reflexivity.
    + intros Hall fnd Hin.
      destruct (mapM_Ok_In _ _ _ _ H Hin) as (r & Ef & Hr).
      destruct (Hall r Hr) as [s Hs]. unfold text_label.
      assert (Hok : finding_ok fnd = true)
        by (apply (finding_record_Ok_iff service); eauto).
      destruct fnd as [| b | z | x t | s' | l' | fd]; try discriminate Hok.
      destruct (finding_record_explicit service fd Hok) as (label & El & E).
      rewrite El. rewrite E in Ef. injection Ef as <-.
      cbn in Hs. now rewrite Hs.
  - exfalso. rewrite <- (map_map fst JStr) in H.
    apply (mapM_str_elements service (map fst d')) with added; [| exact H].
    destruct d'; [discriminate T | discriminate].
Qed.

Lemma load_records_ready (files : list file) :
  forallb file_ready files = true ->
  exists records,
    load_records files = Ok records
    /\ forall r, In r records -> exists s, cell r "Severity" = JStr s.
Proof.
  induction files as [| f rest IH]; cbn [forallb load_records].
  - intros _. exists []. split; [reflexivity | intros r []].
  - intros H. apply andb_true_iff in H as [Hf Hrest].
    destruct (IH Hrest) as (later & Hl & Ht).
    unfold file_ready in Hf. unfold json_load.
    destruct (content f) as [data |]; [| discriminate Hf].
    apply andb_true_iff in Hf as [Hw Hlab]. cbn [bind].
    destruct (proj2 (extract_Ok_iff (service_name (file_name f)) data) Hw)
      as [added Ha].
    rewrite Ha, Hl. cbn [bind]. eexists. split; [reflexivity |].
    intros r Hr. apply in_app_or in Hr as [Hr | Hr]; [| now apply Ht].
    now apply (proj1 (extract_text_labels _ _ _ Ha) Hlab).
Qed.

(** X14.  A run builds a table exactly when there is at least one file,
    every file parses, every document is well shaped, and every finding
    normalizes to a text severity label. *)
Theorem run_succeeds_iff (files : list file) :
  (exists table, df files = Ok table)
  <-> files <> [] /\ forallb file_ready files = true.
Proof.
  split.
  - intros [table H].
    destruct (df_rows files table H) as (records & Hl & Hn & _ & Hm).
    split; [intros ->; injection Hl as <-; now contradiction Hn |].
    apply forallb_forall. intros f Hf.
    destruct (load_records_In files records f Hl Hf) as (data & added & Hc & Ha & Hi).
    unfold file_ready. rewrite Hc. apply andb_true_iff. split.
    + apply (extract_Ok_iff (service_name (file_name f))). eauto.
    + apply (extract_text_labels _ _ _ Ha). intros r Hr.
      destruct (mapM_Ok_In _ _ _ _ Hm (Hi r Hr)) as (r' & Hd & _).
      now apply derive_row_Ok_text in Hd.
  - intros [Hn Hall].
    destruct (load_records_ready files Hall) as (records & Hl & Ht).
    destruct (mapM_all_Ok derive_row records) as [l Hm].
    { intros r Hr. destruct (Ht r Hr) as [s Hs].
      destruct (derive_row_text r s Hs) as (t & c & _ & _ & E). eauto. }
    exists (mkDataFrame table_columns l).
    apply (df_build files records l Hl); [| exact Hm].
    destruct files as [| f rest]; [now contradiction Hn |].
    apply load_records_cons_Ok in Hl as (data & added & later & _ & Ha & _ & ->).
    apply extract_nonempty in Ha. destruct added; [now contradiction Ha | discriminate].
Qed.

Lemma run_succeeds_iff_witness :
  [guardduty_file; inspector_file] <> []
  /\ forallb file_ready [guardduty_file; inspector_file] = true
  /\ exists table, df [guardduty_file; inspector_file] = Ok table.
Proof.
  split; [discriminate |]. split; [reflexivity |].
  apply (proj2 (run_succeeds_iff [guardduty_file; inspector_file])).
  split; [discriminate | reflexivity].
Defined.

(** X15.  The run stops with the "no findings" warning exactly when there
    is no file: a document that loads always gives at least one record. *)
Theorem run_stops_iff_no_files (files : list file) :
  df files = Raise StopException <-> files = [].
Proof.
  split; [| intros ->; reflexivity].
  intros H. destruct files as [| f rest]; [reflexivity | exfalso].
  unfold df in H.
  destruct (load_records (f :: rest)) as [records | e] eqn:Hl; cbn [bind] in H.
  - pose proof (load_records_shape _ _ Hl) as Hs.
    assert (Hn : records <> []).
    { apply load_records_cons_Ok in Hl as (data & added & later & _ & Ha & _ & ->).
      apply extract_nonempty in Ha. destruct added; [now contradiction Ha | discriminate]. }
    rewrite (pd_DataFrame_records records Hs Hn) in H.
    replace (empty (mkDataFrame record_keys records)) with false in H
      by (destruct records; [now contradiction Hn | reflexivity]).
    destruct (assign "Severity" "Severity" _ _) as [t1 | e1] eqn:E1; cbn [bind] in H.
    2: { injection H as ->. apply assign_raise in E1 as [v Hv]. discriminate Hv. }
    destruct (assign "Team" "Service" _ t1) as [t2 | e2] eqn:E2; cbn [bind] in H.
    2: { injection H as ->. apply assign_raise in E2 as [v Hv]. discriminate Hv. }
    destruct (assign "Fix Timeline" "Severity" _ t2) as [t3 | e3] eqn:E3; cbn [bind] in H.
    2: { injection H as ->. apply assign_raise in E3 as [v Hv].
         apply (derived_raise v) in Hv. discriminate Hv. }
    apply assign_raise in H as [v Hv]. apply (derived_raise v) in Hv. discriminate Hv.
  - injection H as ->.
    apply load_records_raise_cases in Hl as [[Hl _] | (g & data & _ & _ & Hx)];
      [discriminate Hl |].
    apply extract_raise_cases in Hx as [Hx | [Hx _]]; discriminate Hx.
Qed.

(** X16.  Record extraction raises [TypeError] exactly when the document is
    a mapping whose findings entry is a number or [true] that is not zero
    (a value that cannot be iterated); every other failure of extraction is
    an [AttributeError]. *)
Theorem extract_exceptions (service : string) (data : json) :
  (extract service data = Raise TypeError
   <-> exists d v, data = JDict d /\ findings_entry data = Some v
                   /\ truthy v = true /\ isinstance_number v = true)
  /\ (forall e, extract service data = Raise e -> e = TypeError \/ e = AttributeError).
Proof.
  split; [split |].
  - intros H. apply extract_raise_cases in H as [H | [_ H]]; [discriminate H | exact H].
  - intros (d & v & -> & Ev & T & N).
    unfold extract. rewrite findings_of_dict, Ev. cbn [bind]. rewrite T.
    destruct v as [| b | z | x t | s | l | d']; try discriminate N; reflexivity.
  - intros e H. apply extract_raise_cases in H as [H | [H _]]; auto.
Qed.

Lemma extract_exceptions_witness :
  extract "Guardduty" (JDict [("Findings", JInt 3)]) = Raise TypeError.
Proof.
  apply (proj2 (proj1 (extract_exceptions "Guardduty" (JDict [("Findings", JInt 3)])))).
  exists [("Findings", JInt 3)], (JInt 3). repeat split.
Defined.

End Outcome.

(* ===================================================================== *)
(** ** More on filters and metrics *)
(* ===================================================================== *)

Section Views.

Lemma DataFrame_ext (a b : DataFrame) :
  columns a = columns b -> rows a = rows b -> a = b.
Proof. destruct a, b; cbn; now intros -> ->. Qed.

Lemma filter_length_le {A : Type} (p : A -> bool) (l : list A) :
  (length (filter p l) <= length l)%nat.
Proof.
  induction l as [| x l IH]; simpl; [lia |]. destruct (p x); simpl; lia.
Qed.

Lemma filter_all {A : Type} (p : A -> bool) (l : list A) :
  (forall x, In x l -> p x = true) -> filter p l = l.
Proof.
  induction l as [| x l IH]; intros H; simpl; [reflexivity |].
  rewrite (H x (or_introl eq_refl)), IH; [reflexivity |].
  intros y Hy. apply H. now right.
Qed.

(** X17.  Filtering never adds rows; filtering a view again with the same
    selection changes nothing; two selections can be applied in either
    order; and filtering by service first and by severity and team next is
    filtering by the three at once. *)
Theorem filtered_composition (table : DataFrame) (a b : selection) :
  (len (filtered table a) <= len table)%nat
  /\ filtered (filtered table a) a = filtered table a
  /\ filtered (filtered table a) b = filtered (filtered table b) a
  /\ filtered (filtered table (mkSelection (selected_services a) [] []))
        (mkSelection [] (selected_severity a) (selected_team a))
     = filtered table a.
Proof.
  split; [| split; [| split]].
  - unfold len. rewrite filtered_rows. apply filter_length_le.
  - apply DataFrame_ext; [now rewrite !filtered_columns |].
    rewrite !filtered_rows, filter_filter. apply filter_ext.
    intros r. now destruct (survivesb a r).
  - apply DataFrame_ext; [now rewrite !filtered_columns |].
    rewrite !filtered_rows, !filter_filter. apply filter_ext.
    intros r. apply andb_comm.
  - apply DataFrame_ext; [now rewrite !filtered_columns |].
    rewrite !filtered_rows, filter_filter. apply filter_ext.
    intros r. unfold survivesb. cbn [selected_services selected_severity selected_team allowsb].
    now rewrite !andb_true_r, !andb_true_l, andb_assoc.
Qed.

Lemma isin_recognized (v : json) (values : list string) :
  (forall s, In s values -> In s ["CRITICAL"; "HIGH"; "MEDIUM"; "LOW"]) ->
  isin v values = true -> recognizedb v = true.
Proof.
  intros Hall H. apply isin_spec in H as (s & -> & Hin).
  apply recognizedb_spec. unfold recognized.
  destruct (Hall s Hin) as [<- | [<- | [<- | [<- | []]]]]; auto.
Qed.

(** X18.  When the severity selection is not empty and holds only CRITICAL,
    HIGH, MEDIUM or LOW, the three severity counts of the view add up to its
    total; when it holds CRITICAL alone, the Critical count is the total. *)
Theorem metrics_of_recognized_selection (table : DataFrame) (sel : selection) :
  selected_severity sel <> [] ->
  (forall s, In s (selected_severity sel) -> In s ["CRITICAL"; "HIGH"; "MEDIUM"; "LOW"]) ->
  (critical_count (filtered table sel) + high_count (filtered table sel)
   + medium_low_count (filtered table sel) = total_findings (filtered table sel))%nat
  /\ (selected_severity sel = ["CRITICAL"] ->
      critical_count (filtered table sel) = total_findings (filtered table sel)).
Proof.
  intros Hne Hall.
  assert (Hrow : forall r, In r (rows (filtered table sel)) ->
                           isin (cell r "Severity") (selected_severity sel) = true).
  { intros r Hr. rewrite filtered_rows in Hr. apply filter_In in Hr as [_ Hs].
    unfold survivesb in Hs. apply andb_true_iff in Hs as [Hs _].
    apply andb_true_iff in Hs as [_ Hs].
    destruct (selected_severity sel); [now contradiction Hne | exact Hs]. }
  unfold critical_count, high_count, medium_low_count, total_findings, len.
  cbn [rows select_rows]. split.
  - rewrite severity_counts. f_equal. apply filter_all.
    intros r Hr. apply (isin_recognized _ _ Hall). now apply Hrow.
  - intros E. f_equal. apply filter_all. intros r Hr.
    specialize (Hrow r Hr). rewrite E in Hrow.
    apply isin_spec in Hrow as (s & -> & [<- | []]). reflexivity.
Qed.

Lemma metrics_of_recognized_selection_witness :
  critical_count (filtered severity_table (mkSelection [] ["CRITICAL"] []))
  = total_findings (filtered severity_table (mkSelection [] ["CRITICAL"] [])).
Proof.
  apply (metrics_of_recognized_selection severity_table (mkSelection [] ["CRITICAL"] [])).
  - discriminate.
  - intros s [<- | []]. simpl. tauto.
  - reflexivity.
Defined.

End Views.

(* ===================================================================== *)
(** ** The sidebar options and the severity chart *)
(* ===================================================================== *)

Section Options.

Lemma leb_trans (s1 s2 s3 : string) :
  String.leb s1 s2 = true -> String.leb s2 s3 = true -> String.leb s1 s3 = true.
Proof.
  unfold String.leb. revert s2 s3.
  induction s1 as [| c1 s1 IH]; intros [| c2 s2] [| c3 s3]; cbn [String.compare];
    intros H1 H2; try reflexivity; try discriminate H1; try discriminate H2.
  destruct (Ascii.compare c1 c2) eqn:E12; try discriminate H1;
    destruct (Ascii.compare c2 c3) eqn:E23; try discriminate H2.
  - apply Ascii.compare_eq_iff in E12. subst c2. rewrite E23. now apply (IH s2 s3).
  - apply Ascii.compare_eq_iff in E12. subst c2. now rewrite E23.
  - apply Ascii.compare_eq_iff in E23. subst c3. now rewrite E12.
  - assert (E13 : Ascii.compare c1 c3 = Lt).
    { unfold Ascii.compare in *. rewrite N.compare_lt_iff in *. lia. }
    now rewrite E13.
Qed.

Lemma leb_false (x y : string) : String.leb x y = false -> String.leb y x = true.
Proof. intros H. destruct (String.leb_total x y) as [E | E]; congruence. Qed.

Lemma insert_sorted_In (x z : string) (l : list string) :
  In z (insert_sorted x l) <-> z = x \/ In z l.
Proof.
  induction l as [| y r IH]; cbn [insert_sorted].
  - simpl. intuition.
  - destruct (String.leb x y); cbn [In]; [intuition | rewrite IH; intuition].
Qed.

Lemma sorted_In (z : string) (l : list string) : In z (sorted l) <-> In z l.
Proof.
  induction l as [| x r IH]; cbn [sorted]; [reflexivity |].
  rewrite insert_sorted_In, IH. simpl. intuition.
Qed.

Lemma insert_sorted_NoDup (x : string) (l : list string) :
  NoDup l -> ~ In x l -> NoDup (insert_sorted x l).
Proof.
  induction l as [| y r IH]; cbn [insert_sorted]; intros Hl Hx.
  - constructor; [intros [] | constructor].
  - destruct (String.leb x y); [now constructor |].
    inversion Hl as [| ? ? Hy Hr]; subst. constructor.
    + rewrite insert_sorted_In. intros [-> | H]; [apply Hx; now left | now apply Hy].
    + apply IH; [exact Hr | intros H; apply Hx; now right].
Qed.

Lemma sorted_NoDup (l : list string) : NoDup l -> NoDup (sorted l).
Proof.
  induction 1 as [| x r Hx Hr IH]; cbn [sorted]; [constructor |].
  apply insert_sorted_NoDup; [exact IH | now rewrite sorted_In].
Qed.

Lemma insert_sorted_ascending (x : string) (l : list string) :
  ascending l -> ascending (insert_sorted x l).
Proof.
  induction l as [| y r IH]; cbn [insert_sorted ascending].
  - intros _. split; [intros z [] | exact I].
  - intros [Hy Hr]. destruct (String.leb x y) eqn:E; cbn [ascending].
    + split; [| now split].
      intros z [<- | Hz]; [exact E |].
      apply (leb_trans x y z E). now apply Hy.
    + split; [| now apply IH].
      intros z Hz. apply insert_sorted_In in Hz as [-> | Hz];
        [now apply leb_false | now apply Hy].
Qed.

Lemma sorted_ascending (l : list string) : ascending (sorted l).
Proof.
  induction l as [| x r IH]; cbn [sorted]; [exact I |].
  now apply insert_sorted_ascending.
Qed.

Lemma unique_In (z : string) (l : list string) : In z (unique l) <-> In z l.
Proof.
  induction l as [| x r IH]; cbn [unique In]; [reflexivity |].
  rewrite filter_In, IH, negb_true_iff, String.eqb_neq.
  destruct (String.eqb_spec x z) as [-> | N]; intuition.
Qed.

Lemma unique_NoDup (l : list string) : NoDup (unique l).
Proof.
  induction l as [| x r IH]; cbn [unique]; constructor.
  - rewrite filter_In, negb_true_iff, String.eqb_neq. intros [_ H]. now apply H.
  - now apply NoDup_filter.
Qed.

(** The texts of a column of texts, cell by cell. *)
Lemma texts_Some (l : list json) (ts : list string) :
  texts l = Some ts <-> l = map JStr ts.
Proof.
  revert ts. induction l as [| v r IH]; intros ts; cbn [texts].
  - split; [intros [= <-]; reflexivity | destruct ts; [reflexivity | discriminate]].
  - destruct v as [| b | z | x t | s | l' | d];
      try (split; [discriminate | destruct ts; discriminate]).
    destruct (texts r) as [ts' |] eqn:E.
    + split.
      * intros [= <-]. cbn [map]. f_equal. now apply IH.
      * destruct ts as [| t ts]; [discriminate |]. cbn [map]. intros [= -> H].
        apply IH in H. now injection H as ->.
    + split; [discriminate |].
      destruct ts as [| t ts]; [discriminate |]. cbn [map]. intros [= -> H].
      apply IH in H. discriminate H.
Qed.

Lemma column_texts (col : string) (table : DataFrame) (ts : list string) :
  texts (column col table) = Some ts ->
  length ts = len table
  /\ (forall r, In r (rows table) -> exists s, cell r col = JStr s /\ In s ts)
  /\ (forall s, In s ts -> exists r, In r (rows table) /\ cell r col = JStr s).
Proof.
  intros H. apply texts_Some in H. unfold column in H. split; [| split].
  - unfold len. rewrite <- (length_map (fun r => cell r col)), H. symmetry. apply length_map.
  - intros r Hr.
    assert (Hin : In (cell r col) (map JStr ts))
      by (rewrite <- H; exact (in_map (fun r => cell r col) _ r Hr)).
    apply in_map_iff in Hin as (s & Es & Hs). exists s. auto.
  - intros s Hs.
    assert (Hin : In (JStr s) (map (fun r => cell r col) (rows table)))
      by (rewrite H; exact (in_map JStr _ s Hs)).
    apply in_map_iff in Hin as (r & Er & Hr). exists r. auto.
Qed.

(** X19.  The choices a sidebar multiselect offers for a column of texts
    are the values that occur in the column: each occurs in some row, each
    value of a row is among them, none is repeated, and they are in
    ascending order.  On a table the run produced the three filter columns
    always have such choices. *)
Theorem options_cover_column :
  (forall col table opts,
      options col table = Some opts ->
      NoDup opts
      /\ ascending opts
      /\ (forall s, In s opts <-> exists r, In r (rows table) /\ cell r col = JStr s))
  /\ (forall files table,
         df files = Ok table ->
         exists services severities teams,
           options "Service" table = Some services
           /\ options "Severity" table = Some severities
           /\ options "Team" table = Some teams).
Proof.
  split.
  - intros col table opts H. unfold options in H.
    destruct (texts (column col table)) as [ts |] eqn:E; [| discriminate H].
    injection H as <-.
    destruct (column_texts col table ts E) as (_ & Hrow & Hval).
    split; [apply sorted_NoDup, unique_NoDup |].
    split; [apply sorted_ascending |].
    intros s. rewrite sorted_In, unique_In. split.
    + apply Hval.
    + intros (r & Hr & Hc). destruct (Hrow r Hr) as (s' & Hc' & Hs').
      rewrite Hc in Hc'. now injection Hc' as ->.
  - intros files table H.
    assert (T : forall col, In col ["Service"; "Severity"; "Team"] ->
                            exists ts, texts (column col table) = Some ts).
    { intros col Hcol. exists (map (fun r => match cell r col with
                                              | JStr s => s
                                              | _ => EmptyString
                                              end) (rows table)).
      apply texts_Some. unfold column. rewrite map_map. apply map_ext_in.
      intros r Hr.
      destruct (df_row_shape files table r H Hr)
        as (sv & a & g & x & s & t & ds & st & c & tm & tl & co & -> & _).
      destruct Hcol as [<- | [<- | [<- | []]]]; reflexivity. }
    unfold options.
    destruct (T "Service") as [t1 ->]; [simpl; tauto |].
    destruct (T "Severity") as [t2 ->]; [simpl; tauto |].
    destruct (T "Team") as [t3 ->]; [simpl; tauto |].
    do 3 eexists. split; [reflexivity |]. split; reflexivity.
Qed.

Lemma options_cover_column_witness :
  options "Severity" severity_table = Some ["CRITICAL"; "HIGH"; "LOW"]
  /\ NoDup ["CRITICAL"; "HIGH"; "LOW"]
  /\ ascending ["CRITICAL"; "HIGH"; "LOW"].
Proof.
  split; [reflexivity |].
  destruct (proj1 options_cover_column "Severity" severity_table
              ["CRITICAL"; "HIGH"; "LOW"] eq_refl) as (Hn & Ha & _).
  split; [exact Hn | exact Ha].
Defined.

Lemma nothing_or_all_allows (col : string) (table : DataFrame) (values : list string)
  (r : row) :
  nothing_or_all col table values -> In r (rows table) ->
  allowsb values (cell r col) = true.
Proof.
  intros [-> | H] Hr; [reflexivity |].
  unfold options in H.
  destruct (texts (column col table)) as [ts |] eqn:E; [| discriminate H].
  injection H as <-.
  destruct (column_texts col table ts E) as (_ & Hrow & _).
  destruct (Hrow r Hr) as (s & Hc & Hs).
  apply allowsb_spec. intros _. exists s. split; [exact Hc |].
  now rewrite sorted_In, unique_In.
Qed.

(** X20.  Selecting every choice a multiselect offers is the same as
    selecting none: when each of the three selections is empty or is the
    full list of choices of its column, the filtered view is the whole
    table. *)
Theorem select_all_is_no_filter (table : DataFrame) (sel : selection) :
  nothing_or_all "Service" table (selected_services sel) ->
  nothing_or_all "Severity" table (selected_severity sel) ->
  nothing_or_all "Team" table (selected_team sel) ->
  filtered table sel = table.
Proof.
  intros H1 H2 H3. apply DataFrame_ext; [apply filtered_columns |].
  rewrite filtered_rows. apply filter_all. intros r Hr. unfold survivesb.
  rewrite (nothing_or_all_allows "Service" table _ r H1 Hr).
  rewrite (nothing_or_all_allows "Severity" table _ r H2 Hr).
  now rewrite (nothing_or_all_allows "Team" table _ r H3 Hr).
Qed.

Lemma select_all_is_no_filter_witness :
  filtered severity_table (mkSelection [] ["CRITICAL"; "HIGH"; "LOW"] ["CAPSA Team"])
  = severity_table.
Proof.
  apply (select_all_is_no_filter severity_table
           (mkSelection [] ["CRITICAL"; "HIGH"; "LOW"] ["CAPSA Team"])).
  - left. reflexivity.
  - right. reflexivity.
  - right. reflexivity.
Defined.

Lemma count_text_cons (k x : string) (l : list string) :
  count_text k (x :: l) = ((if String.eqb k x then 1 else 0) + count_text k l)%nat.
Proof. unfold count_text. cbn [filter]. now destruct (String.eqb k x). Qed.

Lemma list_sum_cons (a : nat) (l : list nat) :
  list_sum (a :: l) = (a + list_sum l)%nat.
Proof. reflexivity. Qed.

Lemma list_sum_zero (x : string) (l : list string) :
  ~ In x l ->
  list_sum (map (fun k => if String.eqb k x then 1%nat else 0%nat) l) = 0%nat.
Proof.
  induction l as [| y l IH]; intros Hn; [reflexivity |].
  cbn [map]. rewrite list_sum_cons.
  destruct (String.eqb_spec y x) as [-> | _]; [exfalso; apply Hn; now left |].
  rewrite IH; [reflexivity |]. intros H. apply Hn. now right.
Qed.

Lemma list_sum_indicator (x : string) (ks : list string) :
  NoDup ks -> In x ks ->
  list_sum (map (fun k => if String.eqb k x then 1%nat else 0%nat) ks) = 1%nat.
Proof.
  induction 1 as [| k ks Hk Hks IH]; [intros [] |].
  cbn [map]. rewrite list_sum_cons. intros [-> | Hx].
  - now rewrite String.eqb_refl, (list_sum_zero x ks Hk).
  - destruct (String.eqb_spec k x) as [-> | _]; [now contradiction Hk |].
    now rewrite IH.
Qed.

Lemma list_sum_add (f g : string -> nat) (l : list string) :
  list_sum (map (fun k => (f k + g k)%nat) l)
  = (list_sum (map f l) + list_sum (map g l))%nat.
Proof.
  induction l as [| y l IH]; [reflexivity |].
  cbn [map]. rewrite !list_sum_cons, IH. lia.
Qed.

Lemma list_sum_counts (ks ts : list string) :
  NoDup ks -> (forall x, In x ts -> In x ks) ->
  list_sum (map (fun k => count_text k ts) ks) = length ts.
Proof.
  intros Hk. induction ts as [| x ts IH]; intros Hin.
  - clear. induction ks as [| k ks IHk]; [reflexivity |].
    cbn [map]. now rewrite list_sum_cons, IHk.
  - rewrite (map_ext _ (fun k => ((if String.eqb k x then 1 else 0) + count_text k ts)%nat))
      by (intros k; apply count_text_cons).
    rewrite list_sum_add, list_sum_indicator; [| exact Hk | apply Hin; now left].
    rewrite IH; [reflexivity |]. intros y Hy. apply Hin. now right.
Qed.

(** X21.  The severity chart is given one group per severity of the view,
    in the order of the sidebar choices; each group counts the rows with
    that severity and counts at least one, and the counts add up to the
    number of rows of the view. *)
Theorem groupby_size_counts (col : string) (view : DataFrame)
  (groups : list (string * nat)) :
  groupby_size col view = Some groups ->
  options col view = Some (map fst groups)
  /\ (forall k n, In (k, n) groups ->
        n = length (filter (fun r => eq_str (cell r col) k) (rows view))
        /\ (0 < n)%nat)
  /\ list_sum (map snd groups) = len view.
Proof.
  unfold groupby_size, options. intros H.
  destruct (texts (column col view)) as [ts |] eqn:E; [| discriminate H].
  injection H as <-.
  pose proof (proj1 (texts_Some _ _) E) as Ecol. unfold column in Ecol.
  assert (C : forall k, count_text k ts
                        = length (filter (fun r => eq_str (cell r col) k) (rows view))).
  { intros k. unfold count_text.
    rewrite <- (length_map JStr (filter (String.eqb k) ts)).
    assert (F : map JStr (filter (String.eqb k) ts)
                = filter (fun v => eq_str v k) (map JStr ts)).
    { clear. induction ts as [| t ts IH]; [reflexivity |].
      cbn [filter map eq_str]. rewrite (String.eqb_sym t k).
      destruct (String.eqb k t); cbn [map]; now rewrite IH. }
    rewrite F, <- Ecol.
    clear. induction (rows view) as [| r l IH]; [reflexivity |].
    cbn [map filter]. destruct (eq_str (cell r col) k); cbn [length]; now rewrite IH. }
  split; [| split].
  - rewrite map_map. cbn [fst]. now rewrite map_id.
  - intros k n Hin. apply in_map_iff in Hin as (k' & [= -> <-] & Hk).
    split; [apply C |].
    rewrite sorted_In, unique_In in Hk. unfold count_text.
    apply filter_nonempty_iff. exists k. split; [exact Hk | apply String.eqb_refl].
  - rewrite map_map. cbn [snd].
    rewrite list_sum_counts.
    + now destruct (column_texts col view ts E) as (L & _).
    + apply sorted_NoDup, unique_NoDup.
    + intros x Hx. now rewrite sorted_In, unique_In.
Qed.

Lemma groupby_size_counts_witness :
  groupby_size "Severity" severity_table = Some [("CRITICAL", 3%nat); ("HIGH", 2%nat); ("LOW", 1%nat)]
  /\ list_sum (map snd [("CRITICAL", 3%nat); ("HIGH", 2%nat); ("LOW", 1%nat)])
     = len severity_table.
Proof.
  split; [reflexivity |].
  exact (proj2 (proj2 (groupby_size_counts "Severity" severity_table
                         [("CRITICAL", 3%nat); ("HIGH", 2%nat); ("LOW", 1%nat)] eq_refl))).
Defined.

End Options.
